(** * Dynasty Warriors 5 XL/Empires unit editor: locator and record codec

    A shallow embedding of [DW5XLE_UNITTOOL.pyw].  Python integers are [Z],
    [bytes]/[bytearray] values are [list byte], Tk variables are fields of a
    record that is threaded through every method, and the file system is a
    finite map from paths to nodes. *)

From Stdlib Require Import ZArith Lia.
From Stdlib.Strings Require Import Byte Ascii String.
From stdpp Require Import gmap strings list.

Open Scope Z_scope.

(** ** Module-level constants *)

Definition BACKUP_DIR : string := "Backups_For_Mod_Disabling".
Definition DW5XLE_UNIT_MOD_EXT : string := ".dw5xlemod".
Definition DEFAULT_MOD_NAME : string := "DW5XLEUnit".

Definition SLOT_SIZE : Z := 22.
Definition NUM_SLOTS_TOTAL : Z := 895.

Definition AOB_PATTERN : list byte :=
  [x14; x14; x14; x80; x14; x14; x14; x80; x14; x14; x14; x80; x14; x14; x14; x80;
   x00; x00; x00; x00; x00; x00; x00; x00; x00; x00; x00; x00; x00; x00; x00; x00].

(** ** Python built-ins used by the tool *)

(** [len(x)] *)
Definition len {A} (l : list A) : Z := Z.of_nat (length l).

(** Does [data] begin with [pat]? *)
Fixpoint startswith (data pat : list byte) : bool :=
  match pat, data with
  | [], _ => true
  | _ :: _, [] => false
  | p :: pat', d :: data' => Byte.eqb p d && startswith data' pat'
  end.

Fixpoint find_from (data pat : list byte) (i : Z) : Z :=
  if startswith data pat then i
  else match data with
       | [] => -1
       | _ :: data' => find_from data' pat (i + 1)
       end.

(** [data.find(pat)]: lowest index of an occurrence, [-1] when there is none. *)
Definition bytes_find (data pat : list byte) : Z := find_from data pat 0.

(** [data[-k:]] for [0 < k <= len(data)]. *)
Definition last_bytes (k : Z) (data : list byte) : list byte :=
  drop (Z.to_nat (len data - k)) data.

(** ** Locator: the first pass of [_load_unit_data_in_memory]

    The open file is its unread remainder [f]; [f.read(chunk_size)] takes the
    next [chunk_size] bytes of it.  One unit of [fuel] is spent per turn of
    the [while True] loop; [None] means the fuel ran out, [Some None] that
    the loop left with [found_offset is None]. *)

Definition chunk_size : Z := 8000.

Fixpoint scan_loop (fuel : nat) (pattern : list byte) (f prev_tail : list byte)
    (file_offset : Z) : option (option Z) :=
  match fuel with
  | O => None
  | S fuel' =>
    let plen := len pattern in
    let chunk := take (Z.to_nat chunk_size) f in
    let f' := drop (Z.to_nat chunk_size) f in
    match chunk with
    | [] => Some None
    | _ :: _ =>
      let data := prev_tail ++ chunk in
      let idx := bytes_find data pattern in
      if negb (idx =? -1) then
        let absolute := (file_offset - len prev_tail) + idx in
        Some (Some (absolute + 0x3D0))
      else
        let prev_tail' :=
          if len data >=? plen - 1 then last_bytes (plen - 1) data else data in
        scan_loop fuel' pattern f' prev_tail' (file_offset + len chunk)
    end
  end.

(** The scan of an image with contents [content]; every turn of the loop
    consumes at least one byte, so [S (length content)] turns are enough
    (lemma [scan_loop_fuel]). *)
Definition locate (content : list byte) : option Z :=
  match scan_loop (S (length content)) AOB_PATTERN content [] 0 with
  | Some r => r
  | None => None
  end.

(** ** What the locator is specified against *)

(** [pat] occurs in [data] at position [p]. *)
Definition occurs_at (pat data : list byte) (p : nat) : Prop :=
  take (length pat) (drop p data) = pat.

Definition no_occurrence (pat data : list byte) : Prop :=
  ∀ p, ¬ occurs_at pat data p.

Definition first_occurrence (pat data : list byte) (p : nat) : Prop :=
  occurs_at pat data p ∧ ∀ q, (q < p)%nat → ¬ occurs_at pat data q.

(** Boolean versions, to decide the above on concrete images. *)
Definition occurs_atb (pat data : list byte) (p : nat) : bool :=
  startswith (drop p data) pat.

Definition first_occurrenceb (pat data : list byte) (p : nat) : bool :=
  occurs_atb pat data p && forallb (λ q, negb (occurs_atb pat data q)) (seq 0 p).

Definition no_occurrenceb (pat data : list byte) : bool :=
  forallb (λ q, negb (occurs_atb pat data q)) (seq 0 (S (length data))).

(** The bytes the scan carries from one chunk to the next: the last
    [len pat - 1] bytes read so far, or all of them while fewer have been
    read. *)
Definition carried (pat done : list byte) : list byte :=
  drop (length done - (length pat - 1)) done.

(** One search over the whole image, and the displacement added. *)
Definition scan_result (pat content : list byte) : option Z :=
  if decide (bytes_find content pat = -1) then None
  else Some (bytes_find content pat + 0x3D0).

(** The size of the unit table in bytes. *)
Definition total_bytes : Z := SLOT_SIZE * NUM_SLOTS_TOTAL.

(** ** Exceptions and fallible steps *)

Inductive exn :=
| SlotRangeError (slot_index : Z)      (* ValueError: Slot {slot_index} out of range. *)
| NameRangeError                       (* ValueError: Name ID must be between 0 and 65535. *)
| ModSizeError (got expected : Z)      (* ValueError: Mod size ... does not match expected ... *)
| BackupSizeError (got expected : Z)   (* ValueError: Backup size ... does not match expected ... *)
| IntLiteralError (s : string)         (* ValueError: invalid literal for int() with base 16 *)
| ByteRangeError                       (* ValueError: byte must be in range(0, 256) *)
| IndexError
| OverflowError                        (* int too big to convert / can't convert negative int *)
| TclError                             (* IntVar.get on an entry that holds no number *)
| FileNotFoundError (path : string)
| IsADirectoryError (path : string)
| NotADirectoryError (path : string)
| InvalidSeekError.                    (* OSError: seek to a negative offset *)

Inductive result (A : Type) :=
| Ok (a : A)
| Raise (e : exn).
Arguments Ok {A} a.
Arguments Raise {A} e.

Global Instance result_ret : MRet result := λ A, Ok.
Global Instance result_bind : MBind result := λ A B k r,
  match r with
  | Ok a => k a
  | Raise e => Raise e
  end.

(** ** Integers and byte sequences *)

Definition byte_value (b : byte) : Z := Z.of_N (Byte.to_N b).

(** The byte with value [v], for [0 <= v < 256]. *)
Definition byte_of (v : Z) : byte := default x00 (Byte.of_N (Z.to_N v)).

(** [int.from_bytes(bs, "little")] *)
Definition int_from_bytes_little (bs : list byte) : Z :=
  foldr (λ b acc, byte_value b + 256 * acc) 0 bs.

Fixpoint little_endian (length : nat) (n : Z) : list byte :=
  match length with
  | O => []
  | S length' => byte_of (n mod 256) :: little_endian length' (n / 256)
  end.

(** [n.to_bytes(length, "little")] *)
Definition to_bytes_little (n : Z) (length : nat) : result (list byte) :=
  if (n <? 0) || (256 ^ Z.of_nat length <=? n) then Raise OverflowError
  else Ok (little_endian length n).

(** [data[k]] as an integer.  Both readers check [len(data)] first, so the
    [IndexError] of an index past the end is never reached and reads as 0. *)
Definition getitem (data : list byte) (k : nat) : Z :=
  byte_value (default x00 (data !! k)).

(** [bytearray(n)] *)
Definition bytearray (n : Z) : list byte := replicate (Z.to_nat n) x00.

(** [record[k] = v] *)
Definition setitem (record : list byte) (k : nat) (v : Z) : result (list byte) :=
  if (length record <=? k)%nat then Raise IndexError
  else if (0 <=? v) && (v <? 256) then Ok (<[k := byte_of v]> record)
  else Raise ByteRangeError.

(** [record[i:j] = bs] *)
Definition setslice (record : list byte) (i j : nat) (bs : list byte) : list byte :=
  take i record ++ bs ++ drop j record.

(** Writing [b] at position [pos] of a byte store: bytes are overwritten in
    place, a gap between the old end and [pos] is filled with zeros, and the
    store grows when the write runs past its end.  An empty write changes
    nothing. *)
Definition write_at (old : list byte) (pos : nat) (b : list byte) : list byte :=
  match b with
  | [] => old
  | _ :: _ =>
    take pos old ++ replicate (pos - length old) x00 ++ b ++ drop (pos + length b) old
  end.

(** ** [io.BytesIO] *)

Module BytesIO.
Record t := mk { buf : list byte; pos : nat }.

(** [BytesIO(data)] *)
Definition new (data : list byte) : t := {| buf := data; pos := 0 |}.

(** [seek(offset)]; the tool only seeks to offsets it has checked to be
    non-negative. *)
Definition seek (io : t) (offset : Z) : t :=
  {| buf := buf io; pos := Z.to_nat offset |}.

(** [read(n)] returns the bytes read and the stream after them. *)
Definition read (io : t) (n : Z) : list byte * t :=
  let data := take (Z.to_nat n) (drop (pos io) (buf io)) in
  (data, {| buf := buf io; pos := pos io + length data |}).

Definition write (io : t) (b : list byte) : t :=
  {| buf := write_at (buf io) (pos io) b; pos := pos io + length b |}.

Definition getvalue (io : t) : list byte := buf io.
End BytesIO.

(** ** Strings: [int(s, 16)], [hex], [str.split] *)

Definition is_space (c : ascii) : bool :=
  match c with
  | " "%char | "009"%char | "010"%char | "011"%char | "012"%char | "013"%char => true
  | _ => false
  end.

(** The value of a character as a digit: [0-9], then [a-z] and [A-Z] for
    10 to 35. *)
Definition digit_value (c : ascii) : option Z :=
  let n := Z.of_N (N_of_ascii c) in
  if (48 <=? n) && (n <=? 57) then Some (n - 48)
  else if (97 <=? n) && (n <=? 122) then Some (n - 87)
  else if (65 <=? n) && (n <=? 90) then Some (n - 55)
  else None.

Fixpoint lstrip (s : list ascii) : list ascii :=
  match s with
  | c :: s' => if is_space c then lstrip s' else s
  | [] => []
  end.

(** Digits of the given base with single underscores between them; returns
    the value, the number of digits and the unread rest, or [None] on a
    doubled or trailing underscore. *)
Fixpoint scan_digits (base : Z) (s : list ascii) (prev_underscore : bool)
    (acc : Z) (digits : nat) : option (Z * nat * list ascii) :=
  let stop := if prev_underscore then None else Some (acc, digits, s) in
  match s with
  | [] => stop
  | c :: s' =>
    if Ascii.eqb c "_" then
      if prev_underscore then None else scan_digits base s' true acc digits
    else
      match digit_value c with
      | Some d =>
        if d <? base then scan_digits base s' false (acc * base + d) (S digits)
        else stop
      | None => stop
      end
  end.

(** [int(s, 16)] on an ASCII string: surrounding whitespace, an optional
    sign, an optional [0x]/[0X] prefix (one underscore may follow it), then
    at least one hexadecimal digit. *)
Definition int_base16 (s : string) : result Z :=
  let s0 := lstrip (list_ascii_of_string s) in
  let '(sign, s1) :=
    match s0 with
    | "+"%char :: r => (1, r)
    | "-"%char :: r => (-1, r)
    | _ => (1, s0)
    end in
  let s2 :=
    match s1 with
    | "0"%char :: x :: r =>
      if Ascii.eqb x "x" || Ascii.eqb x "X" then
        match r with
        | "_"%char :: r' => r'
        | _ => r
        end
      else s1
    | _ => s1
    end in
  match s2 with
  | "_"%char :: _ => Raise (IntLiteralError s)
  | _ =>
    match scan_digits 16 s2 false 0 0 with
    | Some (v, S _, rest) =>
      match lstrip rest with
      | [] => Ok (sign * v)
      | _ :: _ => Raise (IntLiteralError s)
      end
    | _ => Raise (IntLiteralError s)
    end
  end.

Definition hex_digit (d : Z) : ascii :=
  ascii_of_N (Z.to_N (if d <? 10 then 48 + d else 87 + d)).

Fixpoint hex_digits (fuel : nat) (n : Z) (acc : list ascii) : list ascii :=
  match fuel with
  | O => acc
  | S fuel' =>
    let acc' := hex_digit (n mod 16) :: acc in
    if n <? 16 then acc' else hex_digits fuel' (n / 16) acc'
  end.

(** [hex(n)] for [0 <= n]. *)
Definition hex (n : Z) : string :=
  string_of_list_ascii ("0"%char :: "x"%char :: hex_digits (S (Z.to_nat (Z.log2 n))) n []).

(** [s.split(sep, 1)[0]] for a one-character [sep]: what precedes the first
    [sep], or all of [s]. *)
Fixpoint split_head (sep : ascii) (s : string) : string :=
  match s with
  | EmptyString => EmptyString
  | String c s' => if Ascii.eqb c sep then EmptyString else String c (split_head sep s')
  end.

(** ** [os.path] (POSIX flavour) and the file system *)

Fixpoint basename_from (acc p : string) : string :=
  match p with
  | EmptyString => acc
  | String c p' =>
    if Ascii.eqb c "/" then basename_from EmptyString p'
    else basename_from (acc ++ String c EmptyString) p'
  end.

(** [os.path.basename(p)]: what follows the last slash. *)
Definition basename (p : string) : string := basename_from EmptyString p.

(** Index of the last [c] in [s], [-1] when there is none: [s.rfind(c)]. *)
Fixpoint rfind_from (c : ascii) (s : list ascii) (i found : Z) : Z :=
  match s with
  | [] => found
  | d :: s' => rfind_from c s' (i + 1) (if Ascii.eqb d c then i else found)
  end.
Definition rfind (c : ascii) (s : list ascii) : Z := rfind_from c s 0 (-1).

(** [os.path.splitext(p)[0]]: [p] without its extension; leading dots of
    the last component do not start an extension. *)
Definition splitext_root (p : string) : string :=
  let l := list_ascii_of_string p in
  let sepIndex := rfind "/" l in
  let dotIndex := rfind "." l in
  if dotIndex >? sepIndex then
    let stem := take (Z.to_nat (dotIndex - (sepIndex + 1))) (drop (Z.to_nat (sepIndex + 1)) l) in
    if forallb (λ c, Ascii.eqb c ".") stem then p
    else string_of_list_ascii (take (Z.to_nat dotIndex) l)
  else p.

(** [os.path.join(a, b)] *)
Definition join (a b : string) : string :=
  match b with
  | String "/" _ => b
  | _ =>
    match rev (list_ascii_of_string a) with
    | [] => b
    | "/"%char :: _ => a ++ b
    | _ => a ++ "/" ++ b
    end
  end%string.

Fixpoint lstrip_slashes (s : list ascii) : list ascii :=
  match s with
  | c :: s' => if Ascii.eqb c "/" then lstrip_slashes s' else s
  | [] => []
  end.

Definition all_slashes (s : list ascii) : bool := forallb (λ c, Ascii.eqb c "/") s.

(** [os.path.dirname(p)]: what precedes the last slash, without trailing
    slashes unless it is made of slashes only. *)
Definition dirname (p : string) : string :=
  let l := list_ascii_of_string p in
  let i := rfind "/" l + 1 in
  let head := take (Z.to_nat i) l in
  if all_slashes head then string_of_list_ascii head
  else string_of_list_ascii (rev (lstrip_slashes (rev head))).

(** A path names a regular file with its contents, or a directory. *)
Inductive node :=
| File (content : list byte)
| Dir.

Abbreviation FS := (gmap string node).

(** [os.path.exists(path)] *)
Definition path_exists (fs : FS) (path : string) : bool :=
  match fs !! path with
  | Some _ => true
  | None => false
  end.

(** [os.path.isfile(path)] *)
Definition isfile (fs : FS) (path : string) : bool :=
  match fs !! path with
  | Some (File _) => true
  | _ => false
  end.

(** [with open(path, "rb") as f: data = f.read()] *)
Definition read_file (fs : FS) (path : string) : result (list byte) :=
  match fs !! path with
  | Some (File content) => Ok content
  | Some Dir => Raise (IsADirectoryError path)
  | None => Raise (FileNotFoundError path)
  end.

(** [with open(path, "wb") as f: f.write(data)]: truncates a file that
    exists; creates one only inside a directory that exists (the current
    directory for a path without a slash, the root for one under slashes
    only).  An empty path, a path that names a directory or ends in a slash,
    a missing parent and a parent that is a file are refused.  What else an
    operating system may refuse (permissions, a full disk, a name it does
    not accept) is not modelled. *)
Definition write_file (fs : FS) (path : string) (data : list byte) : result FS :=
  if String.eqb path "" then Raise (FileNotFoundError path)
  else if String.eqb (basename path) "" then Raise (IsADirectoryError path)
  else
    match fs !! path with
    | Some Dir => Raise (IsADirectoryError path)
    | Some (File _) => Ok (<[path := File data]> fs)
    | None =>
      let parent := dirname path in
      if all_slashes (list_ascii_of_string parent) then Ok (<[path := File data]> fs)
      else
        match fs !! parent with
        | Some Dir => Ok (<[path := File data]> fs)
        | Some (File _) => Raise (NotADirectoryError path)
        | None => Raise (FileNotFoundError path)
        end
    end.

(** The two ways [open(path, "wb")] goes through for a path with a last
    component: a file at [path] to truncate, or nothing at [path] and a
    directory to create the file in. *)
Definition writable (fs : FS) (path : string) : bool :=
  match fs !! path with
  | Some (File _) => true
  | Some Dir => false
  | None =>
    all_slashes (list_ascii_of_string (dirname path))
    || match fs !! dirname path with
       | Some Dir => true
       | _ => false
       end
  end.

(** [with open(path, "r+b") as f: f.seek(offset); f.write(data)] *)
Definition patch_file (fs : FS) (path : string) (offset : Z) (data : list byte)
    : result FS :=
  match fs !! path with
  | Some (File content) =>
    if offset <? 0 then Raise InvalidSeekError
    else Ok (<[path := File (write_at content (Z.to_nat offset) data)]> fs)
  | Some Dir => Raise (IsADirectoryError path)
  | None => Raise (FileNotFoundError path)
  end.

(** ** Status labels *)

Inductive colour := green | red | orange.

Inductive message :=
| Blank
| NoFileSelected
| LoadedISO (name : string)
| NoISOSelected
| SelectedISONotFound
| CouldNotLocate
| UnexpectedEOF (wanted got : Z)
| UnitBlockLoaded
| UnitDataNotLoaded
| SlotOutOfRange (slot_index last : Z)
| UnexpectedEndOfUnitData (slot_index : Z)
| LoadedSlot (slot_index offset : Z)
| ValuesWritten (slot_index : Z)
| ErrorWithEntries (e : exn)
| ModFileCreated (usermodname : string)
| ErrorCreatingMod (usermodname : string) (e : exn)
| OffsetNotAvailable
| ModEnabled (name : string)
| ErrorEnablingMod (e : exn)
| BackupApplied (name : string)
| ErrorDisablingMod (e : exn).

Record status := Status { text : message; fg : colour }.

(** ** The 21 fields of a unit record *)

Record Fields (A : Type) := mkFields {
  name : A;          (* 2 bytes *)
  unknown1 : A;      (* hidden, 1 byte *)
  voice : A;
  model : A;
  color : A;
  moveset : A;
  horse : A;
  life : A;
  attack : A;
  defense : A;
  bow : A;
  mounted : A;
  speed : A;
  strafespeed : A;
  jump : A;
  ailevel : A;
  aitype : A;
  unknown2 : A;      (* hidden, 1 byte *)
  weapon : A;
  weaponlevel : A;
  orb : A;
}.
Arguments mkFields {A}.
Arguments name {A}. Arguments unknown1 {A}. Arguments voice {A}.
Arguments model {A}. Arguments color {A}. Arguments moveset {A}.
Arguments horse {A}. Arguments life {A}. Arguments attack {A}.
Arguments defense {A}. Arguments bow {A}. Arguments mounted {A}.
Arguments speed {A}. Arguments strafespeed {A}. Arguments jump {A}.
Arguments ailevel {A}. Arguments aitype {A}. Arguments unknown2 {A}.
Arguments weapon {A}. Arguments weaponlevel {A}. Arguments orb {A}.

Definition fields_map {A B} (g : A → B) (f : Fields A) : Fields B :=
  mkFields (g (name f)) (g (unknown1 f)) (g (voice f)) (g (model f)) (g (color f))
    (g (moveset f)) (g (horse f)) (g (life f)) (g (attack f)) (g (defense f))
    (g (bow f)) (g (mounted f)) (g (speed f)) (g (strafespeed f)) (g (jump f))
    (g (ailevel f)) (g (aitype f)) (g (unknown2 f)) (g (weapon f))
    (g (weaponlevel f)) (g (orb f)).

(** A [tk.IntVar]: the integer it holds, or [None] when the entry bound to
    it holds no number (an emptied entry), in which case [get] raises. *)
Definition IntVar := option Z.

Definition IntVar_get (v : IntVar) : result Z :=
  match v with
  | Some z => Ok z
  | None => Raise TclError
  end.

(** ** MainEditor *)

Module MainEditor.
Record t := mk {
  dw_iso : string;
  unit_mem : option BytesIO.t;
  iso_unit_offset : option Z;
  vars : Fields IntVar;
  modname : string;
  selected_slot_str : string;
  status_label : status;
}.

(** The state [__init__] leaves. *)
Definition init : t :=
  {| dw_iso := ""; unit_mem := None; iso_unit_offset := None;
     vars := fields_map Some (mkFields 0 0 0 0 0 0 0 0 0 0 0 0 0 0 0 0 0 0 0 0 0);
     modname := ""; selected_slot_str := hex 0;
     status_label := Status Blank green |}.

Definition set_dw_iso (path : string) (self : t) : t :=
  mk path (unit_mem self) (iso_unit_offset self) (vars self) (modname self)
     (selected_slot_str self) (status_label self).
Definition set_unit_mem (m : option BytesIO.t) (self : t) : t :=
  mk (dw_iso self) m (iso_unit_offset self) (vars self) (modname self)
     (selected_slot_str self) (status_label self).
Definition set_iso_unit_offset (o : option Z) (self : t) : t :=
  mk (dw_iso self) (unit_mem self) o (vars self) (modname self)
     (selected_slot_str self) (status_label self).
Definition set_vars (v : Fields IntVar) (self : t) : t :=
  mk (dw_iso self) (unit_mem self) (iso_unit_offset self) v (modname self)
     (selected_slot_str self) (status_label self).
(** The user types [name] into the mod-name entry. *)
Definition set_modname (name : string) (self : t) : t :=
  mk (dw_iso self) (unit_mem self) (iso_unit_offset self) (vars self) name
     (selected_slot_str self) (status_label self).
(** [self.status_label.config(text=..., fg=...)] *)
Definition config (msg : message) (c : colour) (self : t) : t :=
  mk (dw_iso self) (unit_mem self) (iso_unit_offset self) (vars self) (modname self)
     (selected_slot_str self) (Status msg c).

(** The name of the backup kept for an image. *)
Definition backup_path (dw_iso : string) : string :=
  let iso_base := splitext_root (basename dw_iso) in
  let backup_name := (iso_base ++ "_Original.unitdata")%string in
  join BACKUP_DIR backup_name.

Definition _load_unit_data_in_memory (fs : FS) (self : t) : FS * t :=
  if String.eqb (dw_iso self) "" then (fs, config NoISOSelected red self)
  else
    match fs !! dw_iso self with
    | Some (File content) =>
      (* first pass: scan for the pattern *)
      match locate content with
      | None =>
        (fs, config CouldNotLocate red
               (set_iso_unit_offset None (set_unit_mem None self)))
      | Some found_offset =>
        (* second pass: read the unit block itself *)
        let self := set_iso_unit_offset (Some found_offset) self in
        let total_bytes := SLOT_SIZE * NUM_SLOTS_TOTAL in
        let data := take (Z.to_nat total_bytes) (drop (Z.to_nat found_offset) content) in
        if negb (len data =? total_bytes) then
          (fs, config (UnexpectedEOF total_bytes (len data)) red
                 (set_iso_unit_offset None (set_unit_mem None self)))
        else
          let self := set_unit_mem (Some (BytesIO.new data)) self in
          (* create backup once per ISO *)
          let backup_path := backup_path (dw_iso self) in
          let fs :=
            if negb (path_exists fs backup_path)
            then <[backup_path := File data]> fs
            else fs in
          (fs, config UnitBlockLoaded green self)
      end
    | _ => (fs, config SelectedISONotFound red self)
    end.

Definition _get_selected_slot_index (self : t) : Z :=
  let slot_str := selected_slot_str self in
  match int_base16 slot_str with
  | Ok n => n
  | Raise _ => 0
  end.

Definition decode (data : list byte) : Fields Z :=
  {| name := int_from_bytes_little (take 2 data);
     unknown1 := getitem data 2;
     voice := getitem data 3;
     model := getitem data 4;
     color := getitem data 5;
     moveset := getitem data 6;
     horse := getitem data 7;
     life := getitem data 8;
     attack := getitem data 9;
     defense := getitem data 10;
     bow := getitem data 11;
     mounted := getitem data 12;
     speed := getitem data 13;
     strafespeed := getitem data 14;
     jump := getitem data 15;
     ailevel := getitem data 16;
     aitype := getitem data 17;
     unknown2 := getitem data 18;
     weapon := getitem data 19;
     weaponlevel := getitem data 20;
     orb := getitem data 21 |}.

Definition unit_display (slot_index : Z) (self : t) : t :=
  match unit_mem self with
  | None => config UnitDataNotLoaded red self
  | Some mem =>
    if negb ((0 <=? slot_index) && (slot_index <? NUM_SLOTS_TOTAL)) then
      config (SlotOutOfRange slot_index (NUM_SLOTS_TOTAL - 1)) red self
    else
      let offset := slot_index * SLOT_SIZE in
      let mem := BytesIO.seek mem offset in
      let '(data, mem) := BytesIO.read mem SLOT_SIZE in
      let self := set_unit_mem (Some mem) self in
      if negb (len data =? SLOT_SIZE) then
        config (UnexpectedEndOfUnitData slot_index) red self
      else
        (* every [IntVar.set] of the method, in one step *)
        let self := set_vars (fields_map Some (decode data)) self in
        config (LoadedSlot slot_index offset) green self
  end.

Definition slot_selected (self : t) : t :=
  let index := _get_selected_slot_index self in
  unit_display index self.

Definition ask_file (path : string) (fs : FS) (self : t) : FS * t :=
  if String.eqb path "" then (fs, config NoFileSelected orange self)
  else
    let self := set_dw_iso path self in
    let self := config (LoadedISO (basename path)) green self in
    let '(fs, self) := _load_unit_data_in_memory fs self in
    (* load initial slot 0 *)
    match unit_mem self with
    | Some _ => (fs, unit_display 0 self)
    | None => (fs, self)
    end.

(** The body of the [try] block of [submit_unit]: the slot written and
    the buffer after the write, or the exception raised before it. *)
Definition encode (self : t) (mem : BytesIO.t) : result (Z * BytesIO.t) :=
  let slot_index := _get_selected_slot_index self in
  if negb ((0 <=? slot_index) && (slot_index <? NUM_SLOTS_TOTAL)) then
    Raise (SlotRangeError slot_index)
  else
    name_val ← IntVar_get (name (vars self));
    if negb ((0 <=? name_val) && (name_val <=? 0xFFFF)) then Raise NameRangeError
    else
      let record := bytearray SLOT_SIZE in
      name_bytes ← to_bytes_little name_val 2;
      let record := setslice record 0 2 name_bytes in
      v ← IntVar_get (unknown1 (vars self)); record ← setitem record 2 (Z.land v 0xFF);
      v ← IntVar_get (voice (vars self)); record ← setitem record 3 (Z.land v 0xFF);
      v ← IntVar_get (model (vars self)); record ← setitem record 4 (Z.land v 0xFF);
      v ← IntVar_get (color (vars self)); record ← setitem record 5 (Z.land v 0xFF);
      v ← IntVar_get (moveset (vars self)); record ← setitem record 6 (Z.land v 0xFF);
      v ← IntVar_get (horse (vars self)); record ← setitem record 7 (Z.land v 0xFF);
      v ← IntVar_get (life (vars self)); record ← setitem record 8 (Z.land v 0xFF);
      v ← IntVar_get (attack (vars self)); record ← setitem record 9 (Z.land v 0xFF);
      v ← IntVar_get (defense (vars self)); record ← setitem record 10 (Z.land v 0xFF);
      v ← IntVar_get (bow (vars self)); record ← setitem record 11 (Z.land v 0xFF);
      v ← IntVar_get (mounted (vars self)); record ← setitem record 12 (Z.land v 0xFF);
      v ← IntVar_get (speed (vars self)); record ← setitem record 13 (Z.land v 0xFF);
      v ← IntVar_get (strafespeed (vars self)); record ← setitem record 14 (Z.land v 0xFF);
      v ← IntVar_get (jump (vars self)); record ← setitem record 15 (Z.land v 0xFF);
      v ← IntVar_get (ailevel (vars self)); record ← setitem record 16 (Z.land v 0xFF);
      v ← IntVar_get (aitype (vars self)); record ← setitem record 17 (Z.land v 0xFF);
      v ← IntVar_get (unknown2 (vars self)); record ← setitem record 18 (Z.land v 0xFF);
      v ← IntVar_get (weapon (vars self)); record ← setitem record 19 (Z.land v 0xFF);
      v ← IntVar_get (weaponlevel (vars self)); record ← setitem record 20 (Z.land v 0xFF);
      v ← IntVar_get (orb (vars self)); record ← setitem record 21 (Z.land v 0xFF);
      let offset := slot_index * SLOT_SIZE in
      let mem := BytesIO.seek mem offset in
      let mem := BytesIO.write mem record in
      Ok (slot_index, mem).

Definition submit_unit (self : t) : t :=
  match unit_mem self with
  | None => config UnitDataNotLoaded red self
  | Some mem =>
    match encode self mem with
    | Ok (slot_index, mem') =>
      config (ValuesWritten slot_index) green (set_unit_mem (Some mem') self)
    | Raise e => config (ErrorWithEntries e) red self
    end
  end.

Definition create_unit_mod (fs : FS) (self : t) : FS * t :=
  match unit_mem self with
  | None => (fs, config UnitDataNotLoaded red self)
  | Some mem =>
    let head := split_head "." (modname self) in
    let base_name := if String.eqb head "" then DEFAULT_MOD_NAME else head in
    let usermodname := (base_name ++ DW5XLE_UNIT_MOD_EXT)%string in
    let data := BytesIO.getvalue mem in
    match write_file fs usermodname data with
    | Ok fs' => (fs', config (ModFileCreated usermodname) green self)
    | Raise e => (fs, config (ErrorCreatingMod usermodname e) red self)
    end
  end.
End MainEditor.

(** ** ModManager *)

Module ModManager.
Record t := mk {
  iso_path : string;
  iso_unit_offset : Z;
  block_size : Z;
  mod_status : status;
}.

Definition config (msg : message) (c : colour) (self : t) : t :=
  mk (iso_path self) (iso_unit_offset self) (block_size self) (Status msg c).

(** [ModManager(parent, iso_path, iso_unit_offset, block_size)] *)
Definition new (iso_path : string) (iso_unit_offset block_size : Z) : t :=
  mk iso_path iso_unit_offset block_size (Status Blank green).

(** [file_path] is what the file dialog returned, empty on cancel. *)
Definition enable_mod (file_path : string) (fs : FS) (self : t) : FS * t :=
  if String.eqb file_path "" then (fs, self)
  else
    match
      data ← read_file fs file_path;
      if negb (len data =? block_size self)
      then Raise (ModSizeError (len data) (block_size self))
      else patch_file fs (iso_path self) (iso_unit_offset self) data
    with
    | Ok fs' => (fs', config (ModEnabled (basename file_path)) green self)
    | Raise e => (fs, config (ErrorEnablingMod e) red self)
    end.

Definition disable_mod (file_path : string) (fs : FS) (self : t) : FS * t :=
  if String.eqb file_path "" then (fs, self)
  else
    match
      data ← read_file fs file_path;
      if negb (len data =? block_size self)
      then Raise (BackupSizeError (len data) (block_size self))
      else patch_file fs (iso_path self) (iso_unit_offset self) data
    with
    | Ok fs' => (fs', config (BackupApplied (basename file_path)) green self)
    | Raise e => (fs, config (ErrorDisablingMod e) red self)
    end.
End ModManager.

(** [MainEditor.open_mod_manager]: the manager window it opens, if any. *)
Definition open_mod_manager (self : MainEditor.t) : MainEditor.t * option ModManager.t :=
  match MainEditor.iso_unit_offset self with
  | None => (MainEditor.config OffsetNotAvailable red self, None)
  | Some offset =>
    (self, Some (ModManager.new (MainEditor.dw_iso self) offset (SLOT_SIZE * NUM_SLOTS_TOTAL)))
  end.

(** ** What the codec is specified against *)

(** A field set as the buffer can hold it: every one-byte field reduced to
    its low 8 bits, Name as it is. *)
Definition mask_fields (f : Fields Z) : Fields Z :=
  {| name := name f;
     unknown1 := Z.land (unknown1 f) 0xFF;
     voice := Z.land (voice f) 0xFF;
     model := Z.land (model f) 0xFF;
     color := Z.land (color f) 0xFF;
     moveset := Z.land (moveset f) 0xFF;
     horse := Z.land (horse f) 0xFF;
     life := Z.land (life f) 0xFF;
     attack := Z.land (attack f) 0xFF;
     defense := Z.land (defense f) 0xFF;
     bow := Z.land (bow f) 0xFF;
     mounted := Z.land (mounted f) 0xFF;
     speed := Z.land (speed f) 0xFF;
     strafespeed := Z.land (strafespeed f) 0xFF;
     jump := Z.land (jump f) 0xFF;
     ailevel := Z.land (ailevel f) 0xFF;
     aitype := Z.land (aitype f) 0xFF;
     unknown2 := Z.land (unknown2 f) 0xFF;
     weapon := Z.land (weapon f) 0xFF;
     weaponlevel := Z.land (weaponlevel f) 0xFF;
     orb := Z.land (orb f) 0xFF |}.

Definition is_byte (v : Z) : Prop := 0 ≤ v ≤ 255.

(** Every one-byte field of [f] holds a byte value. *)
Definition byte_fields (f : Fields Z) : Prop :=
  is_byte (unknown1 f) ∧ is_byte (voice f) ∧ is_byte (model f) ∧ is_byte (color f) ∧
  is_byte (moveset f) ∧ is_byte (horse f) ∧ is_byte (life f) ∧ is_byte (attack f) ∧
  is_byte (defense f) ∧ is_byte (bow f) ∧ is_byte (mounted f) ∧ is_byte (speed f) ∧
  is_byte (strafespeed f) ∧ is_byte (jump f) ∧ is_byte (ailevel f) ∧ is_byte (aitype f) ∧
  is_byte (unknown2 f) ∧ is_byte (weapon f) ∧ is_byte (weaponlevel f) ∧ is_byte (orb f).

(** The 22 bytes a field set is stored as, per the layout table. *)
Definition record_of (f : Fields Z) : list byte :=
  [ byte_of (name f mod 256); byte_of (name f / 256 mod 256);
    byte_of (Z.land (unknown1 f) 0xFF); byte_of (Z.land (voice f) 0xFF);
    byte_of (Z.land (model f) 0xFF); byte_of (Z.land (color f) 0xFF);
    byte_of (Z.land (moveset f) 0xFF); byte_of (Z.land (horse f) 0xFF);
    byte_of (Z.land (life f) 0xFF); byte_of (Z.land (attack f) 0xFF);
    byte_of (Z.land (defense f) 0xFF); byte_of (Z.land (bow f) 0xFF);
    byte_of (Z.land (mounted f) 0xFF); byte_of (Z.land (speed f) 0xFF);
    byte_of (Z.land (strafespeed f) 0xFF); byte_of (Z.land (jump f) 0xFF);
    byte_of (Z.land (ailevel f) 0xFF); byte_of (Z.land (aitype f) 0xFF);
    byte_of (Z.land (unknown2 f) 0xFF); byte_of (Z.land (weapon f) 0xFF);
    byte_of (Z.land (weaponlevel f) 0xFF); byte_of (Z.land (orb f) 0xFF) ].

(** The value of a digit string, one digit at a time. *)
Definition hex_step (acc v : Z) : Z := acc * 16 + v.

(** The file name [create_unit_mod] writes for a typed mod name. *)
Definition mod_file_name (modname : string) : string :=
  let head := split_head "." modname in
  ((if String.eqb head "" then DEFAULT_MOD_NAME else head) ++ DW5XLE_UNIT_MOD_EXT)%string.

(** An image with the block [data] written over the bytes at [offset]. *)
Definition patched (iso : list byte) (offset : nat) (data : list byte) : list byte :=
  take offset iso ++ data ++ drop (offset + length data) iso.

(** No character of [s] is a dot. *)
Fixpoint dot_free (s : string) : bool :=
  match s with
  | EmptyString => true
  | String c s' => negb (Ascii.eqb c ".") && dot_free s'
  end.

(** No character of [s] is a slash. *)
Fixpoint slash_free (s : string) : bool :=
  match s with
  | EmptyString => true
  | String c s' => negb (Ascii.eqb c "/") && slash_free s'
  end.

(** ** Sample states *)

(** An editor with an all-zero unit table loaded and slot [0x0] selected. *)
Definition loaded_editor : MainEditor.t :=
  MainEditor.set_unit_mem
    (Some (BytesIO.new (bytearray (SLOT_SIZE * NUM_SLOTS_TOTAL)))) MainEditor.init.

Definition zero_fields : Fields Z := mkFields 0 0 0 0 0 0 0 0 0 0 0 0 0 0 0 0 0 0 0 0 0.

(** Name 513 and distinct byte values in the other fields. *)
Definition sample_fields : Fields Z :=
  mkFields 513 1 2 3 4 5 6 7 8 9 10 11 12 13 14 15 16 17 18 19 255.

(** Voice typed as 300. *)
Definition voice_300 : Fields Z :=
  mkFields 0 0 300 0 0 0 0 0 0 0 0 0 0 0 0 0 0 0 0 0 0.

(** Name typed as 70000. *)
Definition name_70000 : Fields Z :=
  mkFields 70000 0 0 0 0 0 0 0 0 0 0 0 0 0 0 0 0 0 0 0 0.

Definition editor_with (f : Fields Z) (slot_str : string) : MainEditor.t :=
  MainEditor.mk "" (Some (BytesIO.new (bytearray (SLOT_SIZE * NUM_SLOTS_TOTAL)))) None
    (fields_map Some f) "" slot_str (Status Blank green).

(** ** Sample images *)

Definition sample_table : list byte := replicate (Z.to_nat 19690) x07.

(** The signature at position 16, the table 0x3D0 bytes after it. *)
Definition sample_image : list byte :=
  replicate 16 x01 ++ AOB_PATTERN ++ replicate 944 x02 ++ sample_table ++ replicate 5 x03.

(** The signature at position 7990, across the first chunk boundary, and
    nothing where the table should be. *)
Definition split_image : list byte :=
  replicate (Z.to_nat 7990) x01 ++ AOB_PATTERN ++ replicate 10 x02.

Definition sample_fs : FS :=
  {[ "/iso/a.iso" := File sample_image;
     "/iso/b.iso" := File [x01; x02; x03];
     "/iso/c.iso" := File split_image;
     "/mods/short.dw5xlemod" := File [x00; x01];
     "/mods/full.dw5xlemod" := File (replicate (Z.to_nat 19690) x09) ]}.

(** Image a.iso chosen in a fresh editor, then image b.iso. *)
Definition first_load : FS * MainEditor.t :=
  MainEditor.ask_file "/iso/a.iso" sample_fs MainEditor.init.

Definition second_load : FS * MainEditor.t :=
  MainEditor.ask_file "/iso/b.iso" first_load.1 first_load.2.

(** An editor that has located the table of a.iso at offset 992. *)
Definition located_editor : MainEditor.t :=
  MainEditor.set_iso_unit_offset (Some 992)
    (MainEditor.set_dw_iso "/iso/a.iso" MainEditor.init).

(** The length of the file at [path], if it is one. *)
Definition file_len (fs : FS) (path : string) : option Z :=
  match fs !! path with
  | Some (File content) => Some (len content)
  | _ => None
  end.

(** A session on an image that carries the extension of the mod files: the
    mod name typed is the image's path up to its dot, the image is chosen,
    the table dumped (over the image), and that dump enabled. *)
Definition mod_named_fs : FS :=
  {[ "/iso" := Dir; "/iso/unit.dw5xlemod" := File sample_image ]}.

Definition mod_named_loaded : FS * MainEditor.t :=
  MainEditor.ask_file "/iso/unit.dw5xlemod" mod_named_fs
    (MainEditor.set_modname "/iso/unit" MainEditor.init).

Definition mod_named_dumped : FS * MainEditor.t :=
  MainEditor.create_unit_mod mod_named_loaded.1 mod_named_loaded.2.

Definition mod_named_manager : ModManager.t :=
  ModManager.new "/iso/unit.dw5xlemod" 992 (SLOT_SIZE * NUM_SLOTS_TOTAL).

Definition mod_named_enabled : FS * ModManager.t :=
  ModManager.enable_mod "/iso/unit.dw5xlemod" mod_named_dumped.1 mod_named_manager.

(** * Properties *)

Section find_facts.
Implicit Types pat data : list byte.

Lemma startswith_spec data pat :
  startswith data pat = true ↔ take (length pat) data = pat.
Proof.
  revert data. induction pat as [|p pat IH]; intros [|d data]; simpl; try done.
  rewrite andb_true_iff, IH. split.
  - intros [Hb ->]. by apply Byte.byte_dec_bl in Hb as ->.
  - intros [= -> ->]. split; [by apply Byte.byte_dec_lb | done].
Qed.

Lemma occurs_atb_spec pat data p :
  occurs_atb pat data p = true ↔ occurs_at pat data p.
Proof. apply startswith_spec. Qed.

Lemma occurs_at_0 pat data : occurs_at pat data 0 ↔ startswith data pat = true.
Proof. unfold occurs_at. by rewrite startswith_spec. Qed.

Lemma occurs_at_S pat d data p :
  occurs_at pat (d :: data) (S p) ↔ occurs_at pat data p.
Proof. done. Qed.

Lemma occurs_at_bound pat data p :
  pat ≠ [] → occurs_at pat data p → (p + length pat ≤ length data)%nat.
Proof.
  unfold occurs_at. intros Hne H.
  assert (0 < length pat)%nat by (destruct pat; [done | simpl; lia]).
  assert (length (take (length pat) (drop p data)) = length pat) as Hl by by rewrite H.
  rewrite length_take, length_drop in Hl. lia.
Qed.

(** Occurrences move with the window they are looked for in. *)
Lemma occurs_at_drop pat data k p :
  occurs_at pat (drop k data) p ↔ occurs_at pat data (k + p).
Proof. unfold occurs_at. by rewrite drop_drop. Qed.

Lemma occurs_at_app_l pat data rest p :
  (p + length pat ≤ length data)%nat →
  occurs_at pat (data ++ rest) p ↔ occurs_at pat data p.
Proof.
  intros Hp. unfold occurs_at.
  rewrite drop_app_le by lia. rewrite take_app_le; [done|].
  rewrite length_drop. lia.
Qed.

Lemma find_from_spec data pat i :
  (find_from data pat i = -1 ∧ no_occurrence pat data) ∨
  (∃ p, find_from data pat i = i + Z.of_nat p ∧ first_occurrence pat data p).
Proof.
  revert i. induction data as [|d data IH]; intros i; cbn [find_from].
  - destruct (startswith [] pat) eqn:Hs.
    + right. exists 0%nat. split; [lia|]. split; [by apply occurs_at_0 | intros q Hq; lia].
    + left. split; [done|]. intros p Hp.
      destruct pat as [|b pat]; [done|].
      apply occurs_at_bound in Hp; [simpl in Hp; lia | done].
  - destruct (startswith (d :: data) pat) eqn:Hs.
    + right. exists 0%nat. split; [lia|]. split; [by apply occurs_at_0 | intros q Hq; lia].
    + destruct (IH (i + 1)) as [[-> Hno] | (p & -> & Hocc & Hmin)].
      * left. split; [done|]. intros [|p] Hp.
        -- apply occurs_at_0 in Hp. congruence.
        -- by apply (Hno p).
      * right. exists (S p). split; [lia|]. split; [done|].
        intros [|q] Hq Hq'.
        -- apply occurs_at_0 in Hq'. congruence.
        -- apply (Hmin q); [lia | done].
Qed.

Lemma first_occurrence_unique pat data p q :
  first_occurrence pat data p → first_occurrence pat data q → p = q.
Proof.
  intros [Hp Hpm] [Hq Hqm].
  destruct (Nat.lt_trichotomy p q) as [H | [H | H]]; [| done |].
  - by destruct (Hqm p H).
  - by destruct (Hpm q H).
Qed.

Lemma bytes_find_none data pat :
  bytes_find data pat = -1 ↔ no_occurrence pat data.
Proof.
  unfold bytes_find. destruct (find_from_spec data pat 0) as [[-> Hno] | (p & -> & Hocc & _)].
  - done.
  - split; [lia|]. intros Hno. by destruct (Hno p).
Qed.

Lemma bytes_find_first data pat p :
  first_occurrence pat data p → bytes_find data pat = Z.of_nat p.
Proof.
  intros Hp. unfold bytes_find.
  destruct (find_from_spec data pat 0) as [[_ Hno] | (q & -> & Hq)].
  - destruct Hp as [Hp _]. by destruct (Hno p).
  - by rewrite (first_occurrence_unique _ _ _ _ Hp Hq).
Qed.

Lemma bytes_find_found data pat :
  bytes_find data pat ≠ -1 →
  ∃ p, bytes_find data pat = Z.of_nat p ∧ first_occurrence pat data p.
Proof.
  unfold bytes_find. destruct (find_from_spec data pat 0) as [[-> _] | (p & -> & Hp)];
    [done | eauto].
Qed.
End find_facts.

(** ** The chunked scan agrees with one search over the whole image *)

Section scan_facts.
Variable pat : list byte.
Hypothesis pat_nonempty : pat ≠ [].
Implicit Types done rest chunk : list byte.

Lemma carried_length done : (length (carried pat done) ≤ length done)%nat.
Proof. unfold carried. rewrite length_drop. lia. Qed.

Lemma carried_window done chunk :
  carried pat done ++ chunk = drop (length done - length (carried pat done)) (done ++ chunk).
Proof.
  unfold carried. rewrite length_drop.
  rewrite drop_app_le by lia. f_equal. f_equal. lia.
Qed.

Lemma first_occurrence_app_l data rest p :
  first_occurrence pat data p → first_occurrence pat (data ++ rest) p.
Proof.
  intros [Hp Hmin]. pose proof (occurs_at_bound _ _ _ pat_nonempty Hp) as Hb.
  split.
  - by apply occurs_at_app_l.
  - intros q Hq Hocc. apply (Hmin q Hq).
    apply occurs_at_app_l in Hocc; [done | lia].
Qed.

(** With no occurrence among the bytes already read, every occurrence in
    [done ++ chunk] lies in the window the loop searches. *)
Lemma occurrence_in_window done chunk q :
  no_occurrence pat done →
  occurs_at pat (done ++ chunk) q →
  (length done - length (carried pat done) ≤ q)%nat.
Proof.
  intros Hno Hocc. unfold carried. rewrite length_drop.
  destruct (decide (length done - (length done - (length done - (length pat - 1))) ≤ q)%nat)
    as [|Hlt]; [done|].
  exfalso. apply (Hno q). apply (occurs_at_app_l _ _ chunk); [|done].
  assert (0 < length pat)%nat by (destruct pat; [done | simpl; lia]). lia.
Qed.

Lemma window_no_occurrence done chunk :
  no_occurrence pat done →
  no_occurrence pat (carried pat done ++ chunk) →
  no_occurrence pat (done ++ chunk).
Proof.
  intros Hdone Hwin q Hocc.
  pose proof (occurrence_in_window _ _ _ Hdone Hocc) as Hq.
  apply (Hwin (q - (length done - length (carried pat done)))%nat).
  rewrite carried_window, occurs_at_drop.
  by replace (length done - length (carried pat done) + (q - (length done - length (carried pat done))))%nat
    with q by lia.
Qed.

Lemma window_first_occurrence done chunk p :
  no_occurrence pat done →
  first_occurrence pat (carried pat done ++ chunk) p →
  first_occurrence pat (done ++ chunk) (length done - length (carried pat done) + p).
Proof.
  intros Hdone [Hp Hmin]. rewrite carried_window in Hp, Hmin. split.
  - by apply occurs_at_drop.
  - intros q Hq Hocc.
    pose proof (occurrence_in_window _ _ _ Hdone Hocc) as Hq'.
    apply (Hmin (q - (length done - length (carried pat done)))%nat); [lia|].
    rewrite occurs_at_drop.
    by replace (length done - length (carried pat done) + (q - (length done - length (carried pat done))))%nat
      with q by lia.
Qed.

(** The carried bytes after one more chunk, as the loop computes them. *)
Lemma carried_step done chunk :
  (if len (carried pat done ++ chunk) >=? len pat - 1
   then last_bytes (len pat - 1) (carried pat done ++ chunk)
   else carried pat done ++ chunk) = carried pat (done ++ chunk).
Proof.
  assert (0 < length pat)%nat by (destruct pat; [done | simpl; lia]).
  pose proof (carried_length done) as Hc.
  assert (length (carried pat done) = length done - (length done - (length pat - 1)))%nat as Hcl
    by (unfold carried; by rewrite length_drop).
  rewrite Z.geb_leb. unfold last_bytes, len.
  destruct (Z.leb_spec (Z.of_nat (length pat) - 1) (Z.of_nat (length (carried pat done ++ chunk))))
    as [Hge | Hlt]; rewrite length_app in *.
  - rewrite carried_window, drop_drop.
    unfold carried at 3. rewrite length_app. f_equal. lia.
  - rewrite carried_window. unfold carried at 2. rewrite length_app. f_equal. lia.
Qed.

Lemma scan_loop_spec fuel done rest :
  (length rest < fuel)%nat →
  no_occurrence pat done →
  scan_loop fuel pat rest (carried pat done) (len done) = Some (scan_result pat (done ++ rest)).
Proof.
  revert done rest. induction fuel as [|fuel IH]; intros done rest Hfuel Hdone; [lia|].
  cbn [scan_loop].
  destruct (take (Z.to_nat chunk_size) rest) as [|c chunk] eqn:Hchunk.
  - assert (rest = []) as -> by (by destruct rest).
    rewrite app_nil_r. unfold scan_result.
    by rewrite decide_True by by apply bytes_find_none.
  - rewrite <- Hchunk. set (chunk' := take (Z.to_nat chunk_size) rest) in *.
    assert (rest = chunk' ++ drop (Z.to_nat chunk_size) rest) as Hrest
      by (symmetry; apply take_drop).
    destruct (Z.eqb_spec (bytes_find (carried pat done ++ chunk') pat) (-1)) as [Hnone | Hsome];
      cbn [negb].
    + rewrite carried_step.
      replace (len done + len chunk') with (len (done ++ chunk'))
        by (unfold len; rewrite length_app; lia).
      rewrite IH.
      * by rewrite <- app_assoc, <- Hrest.
      * rewrite length_drop. assert (0 < length chunk')%nat by (rewrite Hchunk; simpl; lia).
        assert (length chunk' ≤ Z.to_nat chunk_size)%nat
          by (unfold chunk'; rewrite length_take; lia).
        assert (length rest = length chunk' + length (drop (Z.to_nat chunk_size) rest))%nat
          by (rewrite Hrest at 1; by rewrite length_app).
        rewrite length_drop in *. lia.
      * apply window_no_occurrence; [done|]. by apply bytes_find_none.
    + destruct (bytes_find_found _ _ Hsome) as (p & Hidx & Hfirst).
      apply window_first_occurrence in Hfirst; [|done].
      apply (first_occurrence_app_l _ (drop (Z.to_nat chunk_size) rest)) in Hfirst.
      rewrite <- app_assoc, <- Hrest in Hfirst.
      apply bytes_find_first in Hfirst.
      unfold scan_result. rewrite decide_False by lia.
      rewrite Hfirst, Hidx. pose proof (carried_length done). unfold len. do 2 f_equal. lia.
Qed.
End scan_facts.

Lemma scan_loop_locate content :
  scan_loop (S (length content)) AOB_PATTERN content [] 0
  = Some (scan_result AOB_PATTERN content).
Proof.
  apply (scan_loop_spec AOB_PATTERN ltac:(done) (S (length content)) [] content); [lia|].
  intros p Hp. apply occurs_at_bound in Hp; [simpl in Hp; lia | done].
Qed.

Lemma locate_spec content : locate content = scan_result AOB_PATTERN content.
Proof. unfold locate. by rewrite scan_loop_locate. Qed.

(** The loop never runs out of the fuel [locate] gives it. *)
Lemma scan_loop_fuel content :
  scan_loop (S (length content)) AOB_PATTERN content [] 0 ≠ None.
Proof. by rewrite scan_loop_locate. Qed.

Lemma first_occurrenceb_spec pat data p :
  first_occurrenceb pat data p = true → first_occurrence pat data p.
Proof.
  unfold first_occurrenceb. rewrite andb_true_iff, forallb_forall.
  intros [Hp Hmin]. split; [by apply occurs_atb_spec|].
  intros q Hq Hocc%occurs_atb_spec.
  specialize (Hmin q). rewrite Hocc in Hmin.
  assert (In q (seq 0 p)) as Hin by (apply in_seq; lia).
  by specialize (Hmin Hin).
Qed.

Lemma no_occurrenceb_spec pat data :
  pat ≠ [] → no_occurrenceb pat data = true → no_occurrence pat data.
Proof.
  unfold no_occurrenceb. rewrite forallb_forall. intros Hne Hall p Hocc.
  pose proof (occurs_at_bound _ _ _ Hne Hocc) as Hb.
  apply occurs_atb_spec in Hocc. specialize (Hall p). rewrite Hocc in Hall.
  assert (In p (seq 0 (S (length data)))) as Hin by (apply in_seq; lia).
  by specialize (Hall Hin).
Qed.

Lemma locate_at_first_occurrence content P :
  first_occurrence AOB_PATTERN content P → locate content = Some (Z.of_nat P + 0x3D0).
Proof.
  intros HP. rewrite locate_spec. unfold scan_result.
  apply bytes_find_first in HP. rewrite HP. by rewrite decide_False by lia.
Qed.

Lemma locate_no_occurrence content :
  no_occurrence AOB_PATTERN content → locate content = None.
Proof.
  intros Hno. rewrite locate_spec. unfold scan_result.
  apply bytes_find_none in Hno. by rewrite decide_True.
Qed.

Lemma locate_some_inv content off :
  locate content = Some off →
  ∃ P, first_occurrence AOB_PATTERN content P ∧ off = Z.of_nat P + 0x3D0.
Proof.
  rewrite locate_spec. unfold scan_result.
  destruct (decide (bytes_find content AOB_PATTERN = -1)) as [Hnone | Hsome]; [done|].
  destruct (bytes_find_found _ _ Hsome) as (P & HP & Hfirst).
  rewrite HP. intros [= <-]. eauto.
Qed.

Lemma locate_none_inv content :
  locate content = None → no_occurrence AOB_PATTERN content.
Proof.
  rewrite locate_spec. unfold scan_result.
  destruct (decide (bytes_find content AOB_PATTERN = -1)) as [Hnone | Hsome]; [|done].
  intros _. by apply bytes_find_none.
Qed.

(** C1. On every disc image the locate operation returns the position of the
    first occurrence of the 32-byte signature plus 0x3D0 when the signature
    occurs (wherever it lies relative to the 8000-byte chunks, a split across
    a chunk boundary included), and finds nothing when the signature does not
    occur anywhere in the image. *)
Theorem locate_first_occurrence (content : list byte) :
  (∀ P, first_occurrence AOB_PATTERN content P →
        locate content = Some (Z.of_nat P + 0x3D0)) ∧
  (no_occurrence AOB_PATTERN content → locate content = None).
Proof.
  split; [apply locate_at_first_occurrence | apply locate_no_occurrence].
Qed.

Lemma locate_first_occurrence_witness :
  locate split_image = Some (7990 + 0x3D0) ∧ locate [x01; x02; x03] = None.
Proof.
  split.
  - apply (proj1 (locate_first_occurrence split_image) (Z.to_nat 7990)).
    apply first_occurrenceb_spec. vm_compute. reflexivity.
  - apply (proj2 (locate_first_occurrence [x01; x02; x03])).
    apply no_occurrenceb_spec; [done | vm_compute; reflexivity].
Defined.

(** ** Bytes and integers *)

Lemma land_255_range v : 0 ≤ Z.land v 0xFF < 256.
Proof.
  change 0xFF with (Z.ones 8). rewrite Z.land_ones by lia.
  apply Z.mod_pos_bound. lia.
Qed.

Lemma land_255_id v : is_byte v → Z.land v 0xFF = v.
Proof.
  intros Hv. change 0xFF with (Z.ones 8). rewrite Z.land_ones by lia.
  apply Z.mod_small. unfold is_byte in Hv. lia.
Qed.

Lemma byte_value_of v : 0 ≤ v < 256 → byte_value (byte_of v) = v.
Proof.
  intros Hv. unfold byte_value, byte_of.
  destruct (Byte.of_N (Z.to_N v)) as [b|] eqn:Hb.
  - apply Byte.to_of_N in Hb. simpl. lia.
  - apply Byte.of_N_None_iff in Hb. lia.
Qed.

Lemma setitem_masked record k v :
  (k < length record)%nat →
  setitem record k (Z.land v 0xFF) = Ok (<[k := byte_of (Z.land v 0xFF)]> record).
Proof.
  intros Hk. unfold setitem. pose proof (land_255_range v) as Hv.
  destruct (Nat.leb_spec (length record) k); [lia|].
  destruct (Z.leb_spec 0 (Z.land v 0xFF)); [|lia].
  destruct (Z.ltb_spec (Z.land v 0xFF) 256); [done | lia].
Qed.

Lemma setitem_length record k v record' :
  setitem record k v = Ok record' → length record' = length record.
Proof.
  unfold setitem. repeat case_match; intros [= <-]. apply length_insert.
Qed.

Lemma to_bytes_little_2 n :
  0 ≤ n ≤ 0xFFFF →
  to_bytes_little n 2 = Ok [byte_of (n mod 256); byte_of (n / 256 mod 256)].
Proof.
  intros Hn. unfold to_bytes_little.
  destruct (Z.ltb_spec n 0); [lia|].
  destruct (Z.leb_spec (256 ^ Z.of_nat 2) n) as [Hle|]; [|done].
  change (256 ^ Z.of_nat 2) with 65536 in Hle. lia.
Qed.

Lemma to_bytes_little_length n k bs :
  to_bytes_little n k = Ok bs → length bs = k.
Proof.
  unfold to_bytes_little. case_match; [done|]. intros [= <-]. clear.
  revert n. induction k as [|k IH]; intros n; simpl; [done | by rewrite IH].
Qed.

Lemma int_from_bytes_little_2 n :
  0 ≤ n ≤ 0xFFFF →
  int_from_bytes_little [byte_of (n mod 256); byte_of (n / 256 mod 256)] = n.
Proof.
  intros Hn. unfold int_from_bytes_little. cbn [foldr].
  assert (0 ≤ n / 256 < 256) by (split; [apply Z.div_pos | apply Z.div_lt_upper_bound]; lia).
  rewrite !byte_value_of by (apply Z.mod_pos_bound; lia).
  rewrite (Z.mod_small (n / 256)) by lia.
  pose proof (Z.div_mod n 256). lia.
Qed.

(** ** Writing into a byte store *)

Section write_at_facts.
Implicit Types old b : list byte.

Lemma write_at_read_back old pos b :
  take (length b) (drop pos (write_at old pos b)) = b.
Proof.
  destruct b as [|x b]; [done|]. unfold write_at.
  set (b' := x :: b).
  rewrite app_assoc.
  rewrite drop_app_length'.
  - by rewrite take_app_length.
  - rewrite length_app, length_take, length_replicate. lia.
Qed.

Lemma write_at_length old pos b :
  (pos + length b ≤ length old)%nat → length (write_at old pos b) = length old.
Proof.
  intros Hb. destruct b as [|x b]; [done|]. unfold write_at.
  rewrite !length_app, length_take, length_replicate, length_drop. lia.
Qed.

(** Within the old contents, only [pos, pos + len b) changes. *)
Lemma write_at_frame old pos b k :
  (k < length old)%nat →
  ¬ (pos ≤ k < pos + length b)%nat →
  write_at old pos b !! k = old !! k.
Proof.
  intros Hk Hout. destruct b as [|x b]; [done|]. unfold write_at.
  set (b' := x :: b) in *.
  destruct (decide (k < pos)%nat) as [Hlt | Hge].
  - rewrite lookup_app_l by (rewrite length_take; lia).
    by rewrite lookup_take_lt.
  - assert (pos + length b' ≤ k)%nat as Hk' by lia.
    rewrite lookup_app_r by (rewrite length_take; lia).
    rewrite length_take.
    rewrite lookup_app_r by (rewrite length_replicate; lia).
    rewrite length_replicate.
    rewrite lookup_app_r by lia.
    rewrite lookup_drop. f_equal. lia.
Qed.
End write_at_facts.

(** ** The record codec: [submit_unit] and [unit_display] *)

Section codec_facts.
Import MainEditor.

Lemma slot_guard i :
  0 ≤ i < NUM_SLOTS_TOTAL ↔ negb ((0 <=? i) && (i <? NUM_SLOTS_TOTAL)) = false.
Proof. by rewrite negb_false_iff, andb_true_iff, Z.leb_le, Z.ltb_lt. Qed.

Lemma slot_guard_out i :
  ¬ (0 ≤ i < NUM_SLOTS_TOTAL) ↔ negb ((0 <=? i) && (i <? NUM_SLOTS_TOTAL)) = true.
Proof. rewrite slot_guard. by destruct (negb _). Qed.

(** With every entry holding a number and Name in range, the [try] block
    runs to its end and writes [record_of f] at the selected slot. *)
Lemma encode_ok self mem f :
  vars self = fields_map Some f →
  0 ≤ _get_selected_slot_index self < NUM_SLOTS_TOTAL →
  0 ≤ name f ≤ 0xFFFF →
  encode self mem =
    Ok (_get_selected_slot_index self,
        BytesIO.write (BytesIO.seek mem (_get_selected_slot_index self * SLOT_SIZE))
                      (record_of f)).
Proof.
  intros Hvars Hslot Hname. unfold encode.
  apply slot_guard in Hslot. rewrite Hslot, Hvars.
  cbn [fields_map name unknown1 voice model color moveset horse life attack defense bow
       mounted speed strafespeed jump ailevel aitype unknown2 weapon weaponlevel orb
       IntVar_get mbind result_bind].
  destruct (Z.leb_spec 0 (name f)); [|lia].
  destruct (Z.leb_spec (name f) 0xFFFF); [|lia]. cbn [andb negb].
  rewrite to_bytes_little_2 by done.
  cbn [mbind result_bind].
  change (setslice (bytearray SLOT_SIZE) 0 2 ?bs) with (bs ++ replicate 20 x00).
  cbn [app replicate].
  repeat (rewrite setitem_masked by (cbn [length]; lia);
          cbn [mbind result_bind list_insert insert]).
  done.
Qed.

Ltac encode_step H :=
  match type of H with
  | context [IntVar_get ?v] =>
    destruct (IntVar_get v) eqn:?; cbn [mbind result_bind] in H; [|discriminate H]
  | context [setitem ?r ?k ?v] =>
    let E := fresh "Hset" in
    destruct (setitem r k v) eqn:E; cbn [mbind result_bind] in H; [|discriminate H];
    apply setitem_length in E
  end.

(** Whatever the entries hold, a [try] block that runs to its end wrote
    one 22-byte record at the selected slot, which is in range. *)
Lemma encode_inv self mem j mem' :
  encode self mem = Ok (j, mem') →
  j = _get_selected_slot_index self ∧ 0 ≤ j < NUM_SLOTS_TOTAL ∧
  ∃ record, length record = 22%nat ∧
    mem' = BytesIO.write (BytesIO.seek mem (j * SLOT_SIZE)) record.
Proof.
  unfold encode. intros H.
  destruct (negb _) eqn:Hslot in H; [discriminate H|]. apply slot_guard in Hslot.
  encode_step H.
  destruct (negb _) eqn:Hname in H; [discriminate H|].
  destruct (to_bytes_little _ 2) as [bs|] eqn:Hbs; cbn [mbind result_bind] in H;
    [|discriminate H].
  apply to_bytes_little_length in Hbs.
  assert (length (setslice (bytearray SLOT_SIZE) 0 2 bs) = 22%nat) as Hlen.
  { unfold setslice. rewrite !length_app, Hbs. reflexivity. }
  repeat encode_step H.
  injection H as <- <-. split; [done|]. split; [done|].
  eexists. split; [|done]. congruence.
Qed.

Ltac entry_step H :=
  match type of H with
  | context [IntVar_get ?v] =>
    destruct v; cbn [IntVar_get mbind result_bind] in H; [|discriminate H]
  | context [setitem ?r ?k ?v] =>
    destruct (setitem r k v); cbn [mbind result_bind] in H; [|discriminate H]
  end.

(** A [try] block that runs to its end found a number in each of the 21
    entries, Name among them in range. *)
Lemma encode_entries self mem j mem' :
  encode self mem = Ok (j, mem') →
  ∃ f, vars self = fields_map Some f ∧ 0 ≤ name f ≤ 0xFFFF.
Proof.
  unfold encode. intros H.
  destruct (negb _) eqn:Hslot in H; [discriminate H|].
  destruct (vars self) as [n u1 vo mo co ms ho li atk de bo mt sp ss ju al ai u2 we wl ob].
  cbn [name unknown1 voice model color moveset horse life attack defense bow mounted speed
       strafespeed jump ailevel aitype unknown2 weapon weaponlevel orb] in H.
  entry_step H.
  destruct (negb _) eqn:Hname in H; [discriminate H|].
  destruct (to_bytes_little _ 2) as [bs|]; cbn [mbind result_bind] in H; [|discriminate H].
  repeat entry_step H.
  eexists (mkFields _ _ _ _ _ _ _ _ _ _ _ _ _ _ _ _ _ _ _ _ _).
  split; [reflexivity|]. cbn [name].
  apply negb_false_iff, andb_true_iff in Hname as [?%Z.leb_le ?%Z.leb_le]. lia.
Qed.
Lemma decode_record_of f :
  0 ≤ name f ≤ 0xFFFF → decode (record_of f) = mask_fields f.
Proof.
  intros Hname. unfold decode, record_of, mask_fields, getitem.
  cbn [take lookup list_lookup default from_option].
  rewrite int_from_bytes_little_2 by done. unfold id.
  by rewrite !byte_value_of by apply land_255_range.
Qed.

Lemma mask_fields_id f : byte_fields f → mask_fields f = f.
Proof.
  destruct f as [n u1 vo mo co ms ho li atk de bo mt sp ss ju al ai u2 we wl ob].
  unfold byte_fields, mask_fields.
  cbn [name unknown1 voice model color moveset horse life attack defense bow
       mounted speed strafespeed jump ailevel aitype unknown2 weapon weaponlevel orb].
  intros H. repeat (destruct H as [-> %land_255_id H]). apply land_255_id in H as ->.
  reflexivity.
Qed.

(** Reading the slot that was just written gives the record back. *)
Lemma read_after_write mem (offset : Z) record :
  length record = 22%nat →
  (BytesIO.read (BytesIO.seek (BytesIO.write (BytesIO.seek mem offset) record) offset)
     SLOT_SIZE).1 = record.
Proof.
  intros Hlen. unfold BytesIO.read, BytesIO.seek, BytesIO.write.
  cbn [BytesIO.buf BytesIO.pos fst].
  change (Z.to_nat SLOT_SIZE) with 22%nat. rewrite <- Hlen.
  apply write_at_read_back.
Qed.

Lemma unit_display_loaded self mem slot_index :
  unit_mem self = Some mem →
  0 ≤ slot_index < NUM_SLOTS_TOTAL →
  let data := (BytesIO.read (BytesIO.seek mem (slot_index * SLOT_SIZE)) SLOT_SIZE).1 in
  length data = 22%nat →
  status_label (unit_display slot_index self)
    = Status (LoadedSlot slot_index (slot_index * SLOT_SIZE)) green ∧
  vars (unit_display slot_index self) = fields_map Some (decode data).
Proof.
  intros Hmem Hslot data Hlen. unfold unit_display. rewrite Hmem.
  apply slot_guard in Hslot. rewrite Hslot.
  destruct (BytesIO.read _ _) as [data' mem'] eqn:Hread.
  subst data. cbn [fst] in Hlen.
  unfold len. rewrite Hlen. done.
Qed.
End codec_facts.

(** Closed arithmetic side conditions, by evaluation. *)
Ltac by_computation :=
  vm_compute; repeat split; solve [discriminate | reflexivity].

(** C2 (as the code has it).  For every buffer, every selected slot in
    [0, 895) and every field set whose Name is in [0, 65535], submitting the
    fields and then displaying the slot succeeds and shows the field set with
    every one-byte field reduced to its low 8 bits; it shows the field set
    itself when every one-byte field is in [0, 255]. *)
Theorem submit_display_roundtrip (self : MainEditor.t) (mem : BytesIO.t) (f : Fields Z) :
  MainEditor.unit_mem self = Some mem →
  MainEditor.vars self = fields_map Some f →
  0 ≤ MainEditor._get_selected_slot_index self < NUM_SLOTS_TOTAL →
  0 ≤ name f ≤ 65535 →
  let i := MainEditor._get_selected_slot_index self in
  let shown := MainEditor.unit_display i (MainEditor.submit_unit self) in
  MainEditor.status_label (MainEditor.submit_unit self) = Status (ValuesWritten i) green ∧
  MainEditor.status_label shown = Status (LoadedSlot i (i * SLOT_SIZE)) green ∧
  MainEditor.vars shown = fields_map Some (mask_fields f) ∧
  (byte_fields f → MainEditor.vars shown = MainEditor.vars self).
Proof.
  intros Hmem Hvars Hslot Hname i shown.
  assert (MainEditor.submit_unit self =
          MainEditor.config (ValuesWritten i) green
            (MainEditor.set_unit_mem
               (Some (BytesIO.write (BytesIO.seek mem (i * SLOT_SIZE)) (record_of f))) self))
    as Hsubmit.
  { unfold MainEditor.submit_unit. by rewrite Hmem, (encode_ok _ _ f). }
  pose proof (read_after_write mem (i * SLOT_SIZE) (record_of f) eq_refl) as Hread.
  destruct (unit_display_loaded (MainEditor.submit_unit self)
              (BytesIO.write (BytesIO.seek mem (i * SLOT_SIZE)) (record_of f)) i)
    as [Hstatus Hshown]; [by rewrite Hsubmit | done | by rewrite Hread |].
  rewrite Hread, decode_record_of in Hshown by done.
  split; [by rewrite Hsubmit|]. split; [done|]. split; [done|].
  intros Hbytes. subst shown. by rewrite Hshown, Hvars, mask_fields_id.
Qed.

Lemma submit_display_roundtrip_witness :
  MainEditor.vars
    (MainEditor.unit_display 0 (MainEditor.submit_unit (editor_with sample_fields "0x0")))
  = fields_map Some sample_fields.
Proof.
  refine (proj2 (proj2 (proj2
    (submit_display_roundtrip (editor_with sample_fields "0x0")
       (BytesIO.new (bytearray (SLOT_SIZE * NUM_SLOTS_TOTAL))) sample_fields
       eq_refl eq_refl _ _))) _).
  - by_computation.
  - by_computation.
  - by_computation.
Defined.

(** C2 as stated fails: with Voice typed as 300 and Name 0, slot 0 selected,
    the submit succeeds and the display then shows Voice 44. *)
Lemma roundtrip_fails_for_voice_300 :
  let self := editor_with voice_300 "0x0" in
  0 ≤ MainEditor._get_selected_slot_index self < NUM_SLOTS_TOTAL ∧
  0 ≤ name voice_300 ≤ 65535 ∧
  MainEditor.vars self = fields_map Some voice_300 ∧
  voice (MainEditor.vars (MainEditor.unit_display 0 (MainEditor.submit_unit self))) = Some 44 ∧
  MainEditor.vars (MainEditor.unit_display 0 (MainEditor.submit_unit self))
    ≠ fields_map Some voice_300.
Proof.
  assert (voice (MainEditor.vars (MainEditor.unit_display 0
            (MainEditor.submit_unit (editor_with voice_300 "0x0")))) = Some 44) as Hv
    by (vm_compute; reflexivity).
  repeat split; try (vm_compute; discriminate); done.
Qed.

(** C4.  For every buffer, every selected slot in [0, 895) and every Name
    value outside [0, 65535], [submit_unit] reports the Name-range error and
    changes nothing else: the buffer (its bytes and its position) is the one
    it was. *)
Theorem submit_name_out_of_range (self : MainEditor.t) (mem : BytesIO.t) (name_val : Z) :
  MainEditor.unit_mem self = Some mem →
  0 ≤ MainEditor._get_selected_slot_index self < NUM_SLOTS_TOTAL →
  name (MainEditor.vars self) = Some name_val →
  ¬ (0 ≤ name_val ≤ 65535) →
  MainEditor.submit_unit self
    = MainEditor.config (ErrorWithEntries NameRangeError) red self ∧
  MainEditor.unit_mem (MainEditor.submit_unit self) = Some mem.
Proof.
  intros Hmem Hslot Hname Hrange.
  assert (MainEditor.submit_unit self
          = MainEditor.config (ErrorWithEntries NameRangeError) red self) as ->.
  { unfold MainEditor.submit_unit, MainEditor.encode. rewrite Hmem.
    apply slot_guard in Hslot. rewrite Hslot, Hname. cbn [IntVar_get mbind result_bind].
    destruct (Z.leb_spec 0 name_val); destruct (Z.leb_spec name_val 0xFFFF);
      cbn [andb negb]; first [lia | done]. }
  done.
Qed.

Lemma submit_name_out_of_range_witness :
  MainEditor.submit_unit (editor_with name_70000 "0x0")
    = MainEditor.config (ErrorWithEntries NameRangeError) red (editor_with name_70000 "0x0") ∧
  MainEditor.unit_mem (MainEditor.submit_unit (editor_with name_70000 "0x0"))
    = Some (BytesIO.new (bytearray (SLOT_SIZE * NUM_SLOTS_TOTAL))).
Proof.
  apply (submit_name_out_of_range (editor_with name_70000 "0x0")
           (BytesIO.new (bytearray (SLOT_SIZE * NUM_SLOTS_TOTAL))) 70000).
  - reflexivity.
  - by_computation.
  - reflexivity.
  - lia.
Defined.

(** C8.  With a buffer loaded, [unit_display] of a slot index outside
    [0, 895) reports the out-of-range error and does nothing else: no seek or
    read moves the buffer and no field value is set. *)
Theorem unit_display_out_of_range (self : MainEditor.t) (mem : BytesIO.t) (slot_index : Z) :
  MainEditor.unit_mem self = Some mem →
  ¬ (0 ≤ slot_index < NUM_SLOTS_TOTAL) →
  MainEditor.unit_display slot_index self
    = MainEditor.config (SlotOutOfRange slot_index (NUM_SLOTS_TOTAL - 1)) red self ∧
  MainEditor.unit_mem (MainEditor.unit_display slot_index self) = Some mem ∧
  MainEditor.vars (MainEditor.unit_display slot_index self) = MainEditor.vars self.
Proof.
  intros Hmem Hslot.
  assert (MainEditor.unit_display slot_index self
          = MainEditor.config (SlotOutOfRange slot_index (NUM_SLOTS_TOTAL - 1)) red self) as ->.
  { unfold MainEditor.unit_display. apply slot_guard_out in Hslot. by rewrite Hmem, Hslot. }
  done.
Qed.

Lemma unit_display_out_of_range_witness :
  MainEditor.unit_display 895 loaded_editor
    = MainEditor.config (SlotOutOfRange 895 894) red loaded_editor ∧
  MainEditor.unit_mem (MainEditor.unit_display 895 loaded_editor)
    = Some (BytesIO.new (bytearray (SLOT_SIZE * NUM_SLOTS_TOTAL))) ∧
  MainEditor.vars (MainEditor.unit_display 895 loaded_editor) = MainEditor.vars loaded_editor.
Proof.
  apply (unit_display_out_of_range loaded_editor
           (BytesIO.new (bytearray (SLOT_SIZE * NUM_SLOTS_TOTAL))) 895).
  - reflexivity.
  - unfold NUM_SLOTS_TOTAL. lia.
Defined.

(** C9.  A submit that succeeds for slot [i] leaves the 19690-byte buffer at
    its length and changes no byte outside [i*22, i*22+22); the slot it
    wrote is the selected one, which is in [0, 895). *)
Theorem submit_unit_frame (self : MainEditor.t) (mem : BytesIO.t) (i : Z) :
  MainEditor.unit_mem self = Some mem →
  len (BytesIO.buf mem) = SLOT_SIZE * NUM_SLOTS_TOTAL →
  MainEditor.status_label (MainEditor.submit_unit self) = Status (ValuesWritten i) green →
  i = MainEditor._get_selected_slot_index self ∧ 0 ≤ i < NUM_SLOTS_TOTAL ∧
  ∃ mem', MainEditor.unit_mem (MainEditor.submit_unit self) = Some mem' ∧
    len (BytesIO.buf mem') = SLOT_SIZE * NUM_SLOTS_TOTAL ∧
    ∀ k : nat, ¬ (i * SLOT_SIZE ≤ Z.of_nat k < i * SLOT_SIZE + SLOT_SIZE) →
               BytesIO.buf mem' !! k = BytesIO.buf mem !! k.
Proof.
  intros Hmem Hlen Hstatus. unfold MainEditor.submit_unit in *. rewrite Hmem in *.
  destruct (MainEditor.encode self mem) as [[j mem']|e] eqn:Henc; [|discriminate Hstatus].
  injection Hstatus as ->.
  apply encode_inv in Henc as (Hi & Hrange & record & Hrec & ->).
  split; [done|]. split; [done|]. eexists. split; [done|].
  unfold BytesIO.write, BytesIO.seek, len in *. cbn [BytesIO.buf BytesIO.pos].
  unfold SLOT_SIZE, NUM_SLOTS_TOTAL in *. split.
  - rewrite write_at_length by lia. done.
  - intros k Hk. destruct (decide (k < length (BytesIO.buf mem))%nat) as [Hin | Hout].
    + apply write_at_frame; [done | lia].
    + rewrite !lookup_ge_None_2; [done | lia |].
      rewrite write_at_length by lia. lia.
Qed.

Lemma submit_unit_frame_witness :
  ∃ mem', MainEditor.unit_mem (MainEditor.submit_unit (editor_with sample_fields "0x2"))
            = Some mem' ∧
    len (BytesIO.buf mem') = SLOT_SIZE * NUM_SLOTS_TOTAL ∧
    ∀ k : nat, ¬ (2 * SLOT_SIZE ≤ Z.of_nat k < 2 * SLOT_SIZE + SLOT_SIZE) →
               BytesIO.buf mem' !! k = bytearray (SLOT_SIZE * NUM_SLOTS_TOTAL) !! k.
Proof.
  apply (submit_unit_frame (editor_with sample_fields "0x2")
           (BytesIO.new (bytearray (SLOT_SIZE * NUM_SLOTS_TOTAL))) 2).
  - reflexivity.
  - vm_compute. reflexivity.
  - vm_compute. reflexivity.
Defined.

(** C10.  When the selected-slot string is not a hexadecimal integer
    ([int(s, 16)] raises), the slot index is 0: selecting displays slot 0 and
    submitting writes slot 0, both succeeding where slot 0 can be read and
    the entries are valid. *)
Theorem invalid_slot_string_selects_slot_0 (self : MainEditor.t) (e : exn) :
  int_base16 (MainEditor.selected_slot_str self) = Raise e →
  MainEditor._get_selected_slot_index self = 0 ∧
  MainEditor.slot_selected self = MainEditor.unit_display 0 self ∧
  (∀ mem, MainEditor.unit_mem self = Some mem →
     (22 ≤ length (BytesIO.buf mem))%nat →
     MainEditor.status_label (MainEditor.slot_selected self) = Status (LoadedSlot 0 0) green ∧
     MainEditor.vars (MainEditor.slot_selected self)
       = fields_map Some (MainEditor.decode (take 22 (BytesIO.buf mem)))) ∧
  (∀ mem f, MainEditor.unit_mem self = Some mem →
     MainEditor.vars self = fields_map Some f →
     0 ≤ name f ≤ 65535 →
     MainEditor.submit_unit self
       = MainEditor.config (ValuesWritten 0) green
           (MainEditor.set_unit_mem
              (Some (BytesIO.write (BytesIO.seek mem 0) (record_of f))) self)).
Proof.
  intros Hparse.
  assert (MainEditor._get_selected_slot_index self = 0) as Hidx
    by (unfold MainEditor._get_selected_slot_index; by rewrite Hparse).
  split; [done|]. split; [unfold MainEditor.slot_selected; by rewrite Hidx|].
  split.
  - intros mem Hmem Hlen. unfold MainEditor.slot_selected. rewrite Hidx.
    assert ((BytesIO.read (BytesIO.seek mem (0 * SLOT_SIZE)) SLOT_SIZE).1
            = take 22 (BytesIO.buf mem)) as Hread by done.
    destruct (unit_display_loaded self mem 0 Hmem) as [Hst Hvars].
    + unfold NUM_SLOTS_TOTAL. lia.
    + rewrite Hread, length_take. lia.
    + by rewrite Hread in Hvars.
  - intros mem f Hmem Hvars Hname. unfold MainEditor.submit_unit.
    rewrite Hmem, (encode_ok _ _ f), Hidx; [done | done | | done].
    rewrite Hidx. unfold NUM_SLOTS_TOTAL. lia.
Qed.

Lemma invalid_slot_string_selects_slot_0_witness :
  MainEditor._get_selected_slot_index (editor_with sample_fields "slot") = 0 ∧
  MainEditor.slot_selected (editor_with sample_fields "slot")
    = MainEditor.unit_display 0 (editor_with sample_fields "slot").
Proof.
  pose proof (invalid_slot_string_selects_slot_0 (editor_with sample_fields "slot")
                (IntLiteralError "slot") eq_refl) as (H0 & Hsel & _).
  exact (conj H0 Hsel).
Defined.

(** ** Loading an image: [_load_unit_data_in_memory] *)

Section load_facts.
Import MainEditor.

(** The four ways out of [_load_unit_data_in_memory], read off its text. *)
Lemma load_cases fs self :
  (dw_iso self = "" ∧
   _load_unit_data_in_memory fs self = (fs, config NoISOSelected red self)) ∨
  (dw_iso self ≠ "" ∧ isfile fs (dw_iso self) = false ∧
   _load_unit_data_in_memory fs self = (fs, config SelectedISONotFound red self)) ∨
  (∃ content, dw_iso self ≠ "" ∧ fs !! dw_iso self = Some (File content) ∧
     locate content = None ∧
     _load_unit_data_in_memory fs self
       = (fs, config CouldNotLocate red
                (set_iso_unit_offset None (set_unit_mem None self)))) ∨
  (∃ content found_offset, dw_iso self ≠ "" ∧ fs !! dw_iso self = Some (File content) ∧
     locate content = Some found_offset ∧
     let data := take (Z.to_nat total_bytes) (drop (Z.to_nat found_offset) content) in
     (len data ≠ total_bytes ∧
      _load_unit_data_in_memory fs self
        = (fs, config (UnexpectedEOF total_bytes (len data)) red
                 (set_iso_unit_offset None (set_unit_mem None self)))) ∨
     (len data = total_bytes ∧
      _load_unit_data_in_memory fs self
        = (if path_exists fs (backup_path (dw_iso self)) then fs
           else <[backup_path (dw_iso self) := File data]> fs,
           config UnitBlockLoaded green
             (set_unit_mem (Some (BytesIO.new data))
                (set_iso_unit_offset (Some found_offset) self))))).
Proof.
  unfold _load_unit_data_in_memory.
  destruct (String.eqb_spec (dw_iso self) "") as [Hempty | Hne]; [by left|].
  right. unfold isfile.
  destruct (fs !! dw_iso self) as [[content|]|] eqn:Hfile; [|by left..].
  right. destruct (locate content) as [found_offset|] eqn:Hloc.
  - right. exists content, found_offset. do 3 (split; [done|]).
    fold total_bytes. cbn zeta.
    destruct (Z.eqb_spec
      (len (take (Z.to_nat total_bytes) (drop (Z.to_nat found_offset) content)))
      total_bytes) as [Heq | Hneq]; cbn [negb].
    + right. split; [done|].
      cbn [dw_iso set_unit_mem set_iso_unit_offset].
      by destruct (path_exists fs (backup_path (dw_iso self))).
    + left. by split.
  - left. by exists content.
Qed.
End load_facts.

(** C6.  When the signature is located but fewer than 19690 bytes follow the
    computed table offset, the load reports the short read (wanted 19690, got
    what was there), leaves the buffer and the offset unset and writes no
    file: no partial read is kept. *)
Theorem load_truncated (fs : FS) (self : MainEditor.t) (content : list byte)
    (found_offset : Z) :
  MainEditor.dw_iso self ≠ "" →
  fs !! MainEditor.dw_iso self = Some (File content) →
  locate content = Some found_offset →
  len (drop (Z.to_nat found_offset) content) < 19690 →
  let after := MainEditor._load_unit_data_in_memory fs self in
  after.1 = fs ∧
  MainEditor.status_label after.2
    = Status (UnexpectedEOF 19690 (len (drop (Z.to_nat found_offset) content))) red ∧
  MainEditor.unit_mem after.2 = None ∧
  MainEditor.iso_unit_offset after.2 = None.
Proof.
  intros Hne Hfile Hloc Hshort after. subst after.
  assert (len (take (Z.to_nat total_bytes) (drop (Z.to_nat found_offset) content))
          = len (drop (Z.to_nat found_offset) content)) as Hlen.
  { unfold len in *. rewrite length_take. change (Z.to_nat total_bytes) with (Z.to_nat 19690). lia. }
  destruct (load_cases fs self) as [[He _] | [(_ & Hnf & _) | [(c & _ & Hc & Hl & _) | Hfound]]].
  - done.
  - unfold isfile in Hnf. by rewrite Hfile in Hnf.
  - rewrite Hfile in Hc. injection Hc as <-. congruence.
  - destruct Hfound as (c & off & _ & Hc & Hl & Hcase).
    rewrite Hfile in Hc. injection Hc as <-. rewrite Hloc in Hl. injection Hl as <-.
    cbn zeta in Hcase. rewrite Hlen in Hcase.
    destruct Hcase as [[_ ->] | [Heq _]]; [done|].
    change total_bytes with 19690 in Heq. lia.
Qed.

Lemma load_truncated_witness :
  let after := MainEditor._load_unit_data_in_memory sample_fs
                 (MainEditor.set_dw_iso "/iso/c.iso" loaded_editor) in
  after.1 = sample_fs ∧
  MainEditor.status_label after.2 = Status (UnexpectedEOF 19690 0) red ∧
  MainEditor.unit_mem after.2 = None ∧
  MainEditor.iso_unit_offset after.2 = None.
Proof.
  apply (load_truncated sample_fs (MainEditor.set_dw_iso "/iso/c.iso" loaded_editor)
           split_image (7990 + 0x3D0)).
  - discriminate.
  - vm_compute. reflexivity.
  - apply (locate_at_first_occurrence split_image (Z.to_nat 7990)).
    apply first_occurrenceb_spec. vm_compute. reflexivity.
  - vm_compute. reflexivity.
Defined.

(** C7.  On a load that succeeds while no backup exists under the image's
    derived name, the 19690 table bytes just read are written as that backup
    and nothing else is written; on any later load of an image of that name,
    whatever the image then holds, an existing backup is left as it is (and
    no file at all is written). *)
Theorem backup_written_once (fs fs1 : FS) (self self1 : MainEditor.t) :
  let backup := MainEditor.backup_path (MainEditor.dw_iso self) in
  fs !! backup = None →
  MainEditor._load_unit_data_in_memory fs self = (fs1, self1) →
  MainEditor.status_label self1 = Status UnitBlockLoaded green →
  ∃ table,
    MainEditor.unit_mem self1 = Some (BytesIO.new table) ∧
    len table = 19690 ∧
    fs1 = <[backup := File table]> fs ∧
    ∀ (fs2 : FS) (self2 : MainEditor.t),
      MainEditor.dw_iso self2 = MainEditor.dw_iso self →
      fs2 !! backup = Some (File table) →
      (MainEditor._load_unit_data_in_memory fs2 self2).1 = fs2.
Proof.
  intros backup Hnone Hload Hok.
  destruct (load_cases fs self) as [[_ H] | [(_ & _ & H) | [(c & _ & _ & _ & H) | Hfound]]];
    try (rewrite H in Hload; injection Hload as <- <-; discriminate Hok).
  destruct Hfound as (content & off & _ & _ & _ & [[_ H] | [Hlen H]]);
    rewrite H in Hload; injection Hload as <- <-; [discriminate Hok|].
  eexists. split; [done|]. split; [done|]. split.
  - unfold path_exists. fold backup. by rewrite Hnone.
  - intros fs2 self2 Hsame Hbackup.
    destruct (load_cases fs2 self2)
      as [[_ H2] | [(_ & _ & H2) | [(c2 & _ & _ & _ & H2) | Hfound2]]];
      try (by rewrite H2).
    destruct Hfound2 as (c2 & off2 & _ & _ & _ & [[_ H2] | [_ H2]]); rewrite H2; [done|].
    unfold path_exists. rewrite Hsame. fold backup. by rewrite Hbackup.
Qed.

Lemma backup_written_once_witness :
  ∃ table,
    MainEditor.unit_mem
      (MainEditor._load_unit_data_in_memory sample_fs
         (MainEditor.set_dw_iso "/iso/a.iso" MainEditor.init)).2 = Some (BytesIO.new table) ∧
    len table = 19690 ∧
    (MainEditor._load_unit_data_in_memory sample_fs
       (MainEditor.set_dw_iso "/iso/a.iso" MainEditor.init)).1
      = <[MainEditor.backup_path "/iso/a.iso" := File table]> sample_fs.
Proof.
  destruct (backup_written_once sample_fs
              (MainEditor._load_unit_data_in_memory sample_fs
                 (MainEditor.set_dw_iso "/iso/a.iso" MainEditor.init)).1
              (MainEditor.set_dw_iso "/iso/a.iso" MainEditor.init)
              (MainEditor._load_unit_data_in_memory sample_fs
                 (MainEditor.set_dw_iso "/iso/a.iso" MainEditor.init)).2)
    as (table & Hmem & Hlen & Hfs & _).
  - vm_compute. reflexivity.
  - by destruct (MainEditor._load_unit_data_in_memory _ _).
  - vm_compute. reflexivity.
  - exists table. exact (conj Hmem (conj Hlen Hfs)).
Defined.

(** C3 as stated fails for load: after image a.iso has been loaded, choosing
    b.iso, which holds no signature, is reported as a failure and leaves the
    buffer and the offset unset, not as the first load left them. *)
Lemma failed_load_clears_state :
  (len ∘ BytesIO.buf) <$> MainEditor.unit_mem first_load.2 = Some 19690 ∧
  MainEditor.iso_unit_offset first_load.2 = Some 992 ∧
  MainEditor.status_label second_load.2 = Status CouldNotLocate red ∧
  MainEditor.unit_mem second_load.2 = None ∧
  MainEditor.iso_unit_offset second_load.2 = None ∧
  MainEditor.unit_mem second_load.2 ≠ MainEditor.unit_mem first_load.2.
Proof.
  assert ((len ∘ BytesIO.buf) <$> MainEditor.unit_mem first_load.2 = Some 19690) as H1
    by (vm_compute; reflexivity).
  assert (MainEditor.unit_mem second_load.2 = None) as H2
    by (vm_compute; reflexivity).
  split; [exact H1|]. split; [vm_compute; reflexivity|].
  split; [vm_compute; reflexivity|]. split; [exact H2|].
  split; [vm_compute; reflexivity|].
  intros Heq. rewrite <- Heq, H2 in H1. discriminate H1.
Qed.

(** ** Writing the mod file *)

Section write_facts.
Import MainEditor.

Lemma string_app_nonempty (a b : string) : b ≠ "" → (a ++ b)%string ≠ "".
Proof. intros Hb. destruct a; [done | discriminate]. Qed.

Lemma append_cons c (a b : string) :
  (String c a ++ b)%string = String c (a ++ b)%string.
Proof. reflexivity. Qed.

Lemma append_empty_r (a : string) : (a ++ "")%string = a.
Proof. induction a as [|c a IH]; [done | by rewrite append_cons, IH]. Qed.

Lemma append_snoc (a : string) c (b : string) :
  ((a ++ String c "") ++ b)%string = (a ++ String c b)%string.
Proof. induction a as [|d a IH]; [done | by rewrite !append_cons, IH]. Qed.

Lemma basename_from_slash_free acc name :
  slash_free name = true → basename_from acc name = (acc ++ name)%string.
Proof.
  revert acc. induction name as [|c name IH]; intros acc; cbn [slash_free basename_from].
  - intros _. by rewrite append_empty_r.
  - intros [Hc Hrest]%andb_true_iff. apply negb_true_iff in Hc. rewrite Hc.
    by rewrite IH, append_snoc.
Qed.

(** The last component of a path that ends in a slash-free [ext] ends in
    [ext]. *)
Lemma basename_from_suffix acc x ext :
  slash_free ext = true → ∃ acc', basename_from acc (x ++ ext) = (acc' ++ ext)%string.
Proof.
  intros Hext. revert acc. induction x as [|c x IH]; intros acc.
  - exists acc. by apply basename_from_slash_free.
  - rewrite append_cons. cbn [basename_from]. destruct (Ascii.eqb c "/"); apply IH.
Qed.

Lemma mod_file_name_basename s : basename (mod_file_name s) ≠ "".
Proof.
  unfold mod_file_name, basename.
  destruct (basename_from_suffix ""
              (if String.eqb (split_head "." s) "" then DEFAULT_MOD_NAME else split_head "." s)
              DW5XLE_UNIT_MOD_EXT eq_refl) as [acc' ->].
  by apply string_app_nonempty.
Qed.

Lemma write_file_writable (fs : FS) path data :
  path ≠ "" → basename path ≠ "" → writable fs path = true →
  write_file fs path data = Ok (<[path := File data]> fs).
Proof.
  intros Hpath%String.eqb_neq Hbase%String.eqb_neq. unfold write_file, writable.
  rewrite Hpath, Hbase.
  destruct (fs !! path) as [[c|]|]; [done | done |].
  destruct (all_slashes _); [done|]. cbn [orb].
  by destruct (fs !! dirname path) as [[c|]|].
Qed.

Lemma mod_file_name_nonempty s : mod_file_name s ≠ "".
Proof. unfold mod_file_name. by apply string_app_nonempty. Qed.

(** A dump under a name that can be written succeeds and writes the buffer
    under the mod file's name. *)
Lemma create_unit_mod_writable fs self mem :
  unit_mem self = Some mem →
  writable fs (mod_file_name (modname self)) = true →
  create_unit_mod fs self
  = (<[mod_file_name (modname self) := File (BytesIO.buf mem)]> fs,
     config (ModFileCreated (mod_file_name (modname self))) green self).
Proof.
  intros Hmem Hw. unfold create_unit_mod. rewrite Hmem.
  fold (mod_file_name (modname self)).
  by rewrite write_file_writable
    by auto using mod_file_name_nonempty, mod_file_name_basename.
Qed.
End write_facts.

Section failure_facts.
Import MainEditor.

Lemma load_not_selected fs self :
  dw_iso self = "" →
  _load_unit_data_in_memory fs self = (fs, config NoISOSelected red self).
Proof.
  intros Hempty.
  destruct (load_cases fs self)
    as [[_ H] | [(Hne & _) | [(c & Hne & _) | (c & o & Hne & _)]]]; done.
Qed.

Lemma load_not_a_file fs self :
  dw_iso self ≠ "" → isfile fs (dw_iso self) = false →
  _load_unit_data_in_memory fs self = (fs, config SelectedISONotFound red self).
Proof.
  intros Hne Hnf.
  destruct (load_cases fs self)
    as [[He _] | [(_ & _ & H) | [(c & _ & Hc & _) | (c & o & _ & Hc & _)]]];
    [done | done | |]; unfold isfile in Hnf; by rewrite Hc in Hnf.
Qed.

Lemma load_no_signature fs self content :
  dw_iso self ≠ "" → fs !! dw_iso self = Some (File content) →
  no_occurrence AOB_PATTERN content →
  _load_unit_data_in_memory fs self
  = (fs, config CouldNotLocate red (set_iso_unit_offset None (set_unit_mem None self))).
Proof.
  intros Hne Hfile Hno. apply locate_no_occurrence in Hno.
  destruct (load_cases fs self)
    as [[He _] | [(_ & Hnf & _) | [(c & _ & _ & _ & H) | (c & o & _ & Hc & Hl & _)]]].
  - done.
  - unfold isfile in Hnf. by rewrite Hfile in Hnf.
  - done.
  - rewrite Hfile in Hc. injection Hc as <-. congruence.
Qed.

Lemma load_short fs self content P :
  dw_iso self ≠ "" → fs !! dw_iso self = Some (File content) →
  first_occurrence AOB_PATTERN content P →
  len content < Z.of_nat P + 0x3D0 + 19690 →
  _load_unit_data_in_memory fs self
  = (fs, config (UnexpectedEOF 19690 (len (drop (Z.to_nat (Z.of_nat P + 0x3D0)) content)))
           red (set_iso_unit_offset None (set_unit_mem None self))).
Proof.
  intros Hne Hfile Hfirst Hshort. apply locate_at_first_occurrence in Hfirst.
  assert (len (take (Z.to_nat total_bytes) (drop (Z.to_nat (Z.of_nat P + 0x3D0)) content))
          = len (drop (Z.to_nat (Z.of_nat P + 0x3D0)) content)) as Hlen.
  { unfold len in *. rewrite length_take, length_drop in *.
    change (Z.to_nat total_bytes) with (Z.to_nat 19690). lia. }
  destruct (load_cases fs self)
    as [[He _] | [(_ & Hnf & _) | [(c & _ & Hc & Hl & _) | (c & o & _ & Hc & Hl & Hcase)]]].
  - done.
  - unfold isfile in Hnf. by rewrite Hfile in Hnf.
  - rewrite Hfile in Hc. injection Hc as <-. congruence.
  - rewrite Hfile in Hc. injection Hc as <-. rewrite Hfirst in Hl. injection Hl as <-.
    cbn zeta in Hcase. rewrite Hlen in Hcase.
    destruct Hcase as [[_ ->] | [Heq _]]; [done|].
    unfold len in *. rewrite length_drop in Heq. change total_bytes with 19690 in Heq. lia.
Qed.

Lemma submit_not_loaded self :
  unit_mem self = None → submit_unit self = config UnitDataNotLoaded red self.
Proof. intros Hmem. unfold submit_unit. by rewrite Hmem. Qed.

Lemma submit_refused self mem :
  unit_mem self = Some mem →
  ¬ (0 ≤ _get_selected_slot_index self < NUM_SLOTS_TOTAL ∧
     ∃ f, vars self = fields_map Some f ∧ 0 ≤ name f ≤ 0xFFFF) →
  ∃ e, submit_unit self = config (ErrorWithEntries e) red self.
Proof.
  intros Hmem Hnot. unfold submit_unit. rewrite Hmem.
  destruct (encode self mem) as [[j mem']|e] eqn:Henc; [|eauto].
  destruct Hnot. split.
  - apply encode_inv in Henc as (-> & Hj & _). done.
  - by apply encode_entries in Henc.
Qed.

Lemma create_unit_mod_not_loaded fs self :
  unit_mem self = None →
  create_unit_mod fs self = (fs, config UnitDataNotLoaded red self).
Proof. intros Hmem. unfold create_unit_mod. by rewrite Hmem. Qed.

Lemma create_unit_mod_refused fs self mem :
  unit_mem self = Some mem →
  writable fs (mod_file_name (modname self)) = false →
  ∃ e, create_unit_mod fs self
       = (fs, config (ErrorCreatingMod (mod_file_name (modname self)) e) red self).
Proof.
  intros Hmem Hcause. unfold create_unit_mod, write_file. rewrite Hmem.
  fold (mod_file_name (modname self)). unfold writable in Hcause.
  destruct (String.eqb (mod_file_name (modname self)) ""); [eauto|].
  destruct (String.eqb (basename (mod_file_name (modname self))) ""); [eauto|].
  destruct (fs !! mod_file_name (modname self)) as [[c|]|]; [done | eauto |].
  destruct (all_slashes _); [done|].
  destruct (fs !! dirname (mod_file_name (modname self))) as [[|]|]; [eauto | done | eauto].
Qed.

(** A load fails for these reasons and no other. *)
Lemma load_fails_iff fs self :
  fg (status_label (_load_unit_data_in_memory fs self).2) = red ↔
  dw_iso self = "" ∨ isfile fs (dw_iso self) = false ∨
  ∃ content, fs !! dw_iso self = Some (File content) ∧
    (no_occurrence AOB_PATTERN content ∨
     ∃ P, first_occurrence AOB_PATTERN content P ∧
          len content < Z.of_nat P + 0x3D0 + 19690).
Proof.
  split.
  - destruct (load_cases fs self)
      as [[He _] | [(_ & Hnf & _) | [(c & _ & Hc & Hl & _) | (c & o & _ & Hc & Hl & Hcase)]]].
    + by left.
    + by right; left.
    + intros _. right; right. exists c. split; [done|]. left. by apply locate_none_inv.
    + cbn zeta in Hcase. destruct Hcase as [[Hlen _] | [_ ->]]; [|discriminate].
      intros _. right; right. exists c. split; [done|]. right.
      apply locate_some_inv in Hl as (P & HP & ->). exists P. split; [done|].
      unfold len in *. rewrite length_take, length_drop in Hlen.
      change total_bytes with 19690 in Hlen. lia.
  - destruct (decide (dw_iso self = "")) as [He|Hne].
    { intros _. by rewrite load_not_selected. }
    intros [He | [Hnf | (c & Hc & [Hno | (P & HP & Hshort)])]].
    + done.
    + by rewrite load_not_a_file.
    + by rewrite (load_no_signature _ _ c).
    + by rewrite (load_short _ _ c P).
Qed.

(** A submit fails for these reasons and no other. *)
Lemma submit_fails_iff self :
  fg (status_label (submit_unit self)) = red ↔
  unit_mem self = None ∨
  ¬ (0 ≤ _get_selected_slot_index self < NUM_SLOTS_TOTAL ∧
     ∃ f, vars self = fields_map Some f ∧ 0 ≤ name f ≤ 0xFFFF).
Proof.
  destruct (unit_mem self) as [mem|] eqn:Hmem.
  - split.
    + intros Hred. right. intros (Hi & f & Hvars & Hname).
      unfold submit_unit in Hred. by rewrite Hmem, (encode_ok _ _ f) in Hred.
    + intros [|Hnot]; [done|].
      by destruct (submit_refused self mem Hmem Hnot) as [e ->].
  - split; [by left|]. intros _. by rewrite submit_not_loaded.
Qed.

(** A dump fails for these reasons and no other. *)
Lemma create_unit_mod_fails_iff fs self :
  fg (status_label (create_unit_mod fs self).2) = red ↔
  unit_mem self = None ∨ writable fs (mod_file_name (modname self)) = false.
Proof.
  destruct (unit_mem self) as [mem|] eqn:Hmem.
  - destruct (writable fs (mod_file_name (modname self))) eqn:Hw.
    + rewrite (create_unit_mod_writable _ _ mem) by done. split; [done|]. by intros [|].
    + destruct (create_unit_mod_refused fs self mem Hmem Hw) as [e ->]. split; [by right|done].
  - split; [by left|]. intros _. by rewrite create_unit_mod_not_loaded.
Qed.
End failure_facts.

(** The conditions under which an enable or a disable goes through. *)
Lemma apply_refused file_path fs (mm : ModManager.t) :
  file_path ≠ "" →
  ¬ (∃ data iso, fs !! file_path = Some (File data) ∧
                 len data = ModManager.block_size mm ∧
                 fs !! ModManager.iso_path mm = Some (File iso) ∧
                 0 ≤ ModManager.iso_unit_offset mm) →
  (∃ e, ModManager.enable_mod file_path fs mm
        = (fs, ModManager.config (ErrorEnablingMod e) red mm)) ∧
  (∃ e, ModManager.disable_mod file_path fs mm
        = (fs, ModManager.config (ErrorDisablingMod e) red mm)).
Proof.
  intros Hpath Hnot. apply String.eqb_neq in Hpath.
  unfold ModManager.enable_mod, ModManager.disable_mod, read_file, patch_file.
  rewrite Hpath.
  destruct (fs !! file_path) as [[data|]|] eqn:Hfile; cbn [mbind result_bind];
    [|split; eauto..].
  destruct (Z.eqb_spec (len data) (ModManager.block_size mm)) as [Hlen|]; cbn [negb];
    [|split; eauto].
  destruct (fs !! ModManager.iso_path mm) as [[iso|]|] eqn:Hiso; [|split; eauto..].
  destruct (Z.ltb_spec (ModManager.iso_unit_offset mm) 0) as [|Hpos]; [split; eauto|].
  destruct Hnot. eauto 10.
Qed.

(** An enable or a disable fails for these reasons and no other. *)
Lemma apply_fails_iff file_path fs (mm : ModManager.t) :
  file_path ≠ "" →
  (fg (ModManager.mod_status (ModManager.enable_mod file_path fs mm).2) = red ↔
   ¬ (∃ data iso, fs !! file_path = Some (File data) ∧
                  len data = ModManager.block_size mm ∧
                  fs !! ModManager.iso_path mm = Some (File iso) ∧
                  0 ≤ ModManager.iso_unit_offset mm)) ∧
  (fg (ModManager.mod_status (ModManager.disable_mod file_path fs mm).2) = red ↔
   ¬ (∃ data iso, fs !! file_path = Some (File data) ∧
                  len data = ModManager.block_size mm ∧
                  fs !! ModManager.iso_path mm = Some (File iso) ∧
                  0 ≤ ModManager.iso_unit_offset mm)).
Proof.
  intros Hpath.
  assert ((∃ data iso, fs !! file_path = Some (File data) ∧
                       len data = ModManager.block_size mm ∧
                       fs !! ModManager.iso_path mm = Some (File iso) ∧
                       0 ≤ ModManager.iso_unit_offset mm) →
          fg (ModManager.mod_status (ModManager.enable_mod file_path fs mm).2) = green ∧
          fg (ModManager.mod_status (ModManager.disable_mod file_path fs mm).2) = green)
    as Hgreen.
  { intros (data & iso & Hfile & Hlen & Hiso & Hpos).
    pose proof Hpath as Hp%String.eqb_neq.
    unfold ModManager.enable_mod, ModManager.disable_mod, read_file, patch_file.
    rewrite Hp, Hfile. cbn [mbind result_bind].
    rewrite Hlen, Z.eqb_refl. cbn [negb]. rewrite Hiso.
    by destruct (Z.ltb_spec (ModManager.iso_unit_offset mm) 0); [lia|]. }
  split; split.
  - intros Hred Hok. apply Hgreen in Hok as [Hok _]. congruence.
  - intros Hnot. by destruct (apply_refused _ _ _ Hpath Hnot) as [[e ->] _].
  - intros Hred Hok. apply Hgreen in Hok as [_ Hok]. congruence.
  - intros Hnot. by destruct (apply_refused _ _ _ Hpath Hnot) as [_ [e ->]].
Qed.

(** C3 (as the code has it).  Each way an operation can fail gives a red
    status message, and:
    - a load with no image selected, or with a path that is not a file,
      changes nothing else; a load of a file without the signature, or with
      fewer than 19690 bytes at the table offset, leaves the buffer and the
      offset unset; no failing load writes a file;
    - a submit with no buffer, a selected slot outside [0, 895), an entry
      that holds no number or a Name outside [0, 65535] changes nothing but
      the status label, so the buffer and the offset are as they were;
    - a dump with no buffer, or under a mod file name that cannot be
      written (it names a directory, or no file and no directory to create
      it in), changes no file and nothing but the status label;
    - an enable or disable whose mod file or image is missing or a
      directory, whose block is not of the block size, or whose offset is
      negative, changes no file and nothing of the manager but its status;
    - a load, a submit, a dump, an enable and a disable report a failure
      (a red status) in these cases and in no other. *)
Theorem failed_operation_state :
  (∀ fs self,
     MainEditor.dw_iso self = "" →
     MainEditor._load_unit_data_in_memory fs self
     = (fs, MainEditor.config NoISOSelected red self)) ∧
  (∀ fs self,
     MainEditor.dw_iso self ≠ "" → isfile fs (MainEditor.dw_iso self) = false →
     MainEditor._load_unit_data_in_memory fs self
     = (fs, MainEditor.config SelectedISONotFound red self)) ∧
  (∀ fs self content,
     MainEditor.dw_iso self ≠ "" → fs !! MainEditor.dw_iso self = Some (File content) →
     no_occurrence AOB_PATTERN content →
     MainEditor._load_unit_data_in_memory fs self
     = (fs, MainEditor.config CouldNotLocate red
              (MainEditor.set_iso_unit_offset None (MainEditor.set_unit_mem None self)))) ∧
  (∀ fs self content P,
     MainEditor.dw_iso self ≠ "" → fs !! MainEditor.dw_iso self = Some (File content) →
     first_occurrence AOB_PATTERN content P →
     len content < Z.of_nat P + 0x3D0 + 19690 →
     MainEditor._load_unit_data_in_memory fs self
     = (fs, MainEditor.config
              (UnexpectedEOF 19690 (len (drop (Z.to_nat (Z.of_nat P + 0x3D0)) content))) red
              (MainEditor.set_iso_unit_offset None (MainEditor.set_unit_mem None self)))) ∧
  (∀ self,
     MainEditor.unit_mem self = None →
     MainEditor.submit_unit self = MainEditor.config UnitDataNotLoaded red self) ∧
  (∀ self mem,
     MainEditor.unit_mem self = Some mem →
     ¬ (0 ≤ MainEditor._get_selected_slot_index self < NUM_SLOTS_TOTAL ∧
        ∃ f, MainEditor.vars self = fields_map Some f ∧ 0 ≤ name f ≤ 65535) →
     ∃ e, MainEditor.submit_unit self = MainEditor.config (ErrorWithEntries e) red self) ∧
  (∀ fs self,
     MainEditor.unit_mem self = None →
     MainEditor.create_unit_mod fs self
     = (fs, MainEditor.config UnitDataNotLoaded red self)) ∧
  (∀ fs self mem,
     MainEditor.unit_mem self = Some mem →
     writable fs (mod_file_name (MainEditor.modname self)) = false →
     ∃ e, MainEditor.create_unit_mod fs self
          = (fs, MainEditor.config
                   (ErrorCreatingMod (mod_file_name (MainEditor.modname self)) e) red self)) ∧
  (∀ file_path fs mm,
     file_path ≠ "" →
     ¬ (∃ data iso, fs !! file_path = Some (File data) ∧
                    len data = ModManager.block_size mm ∧
                    fs !! ModManager.iso_path mm = Some (File iso) ∧
                    0 ≤ ModManager.iso_unit_offset mm) →
     (∃ e, ModManager.enable_mod file_path fs mm
           = (fs, ModManager.config (ErrorEnablingMod e) red mm)) ∧
     (∃ e, ModManager.disable_mod file_path fs mm
           = (fs, ModManager.config (ErrorDisablingMod e) red mm))) ∧
  (∀ fs self,
     fg (MainEditor.status_label (MainEditor._load_unit_data_in_memory fs self).2) = red ↔
     MainEditor.dw_iso self = "" ∨ isfile fs (MainEditor.dw_iso self) = false ∨
     ∃ content, fs !! MainEditor.dw_iso self = Some (File content) ∧
       (no_occurrence AOB_PATTERN content ∨
        ∃ P, first_occurrence AOB_PATTERN content P ∧
             len content < Z.of_nat P + 0x3D0 + 19690)) ∧
  (∀ self,
     fg (MainEditor.status_label (MainEditor.submit_unit self)) = red ↔
     MainEditor.unit_mem self = None ∨
     ¬ (0 ≤ MainEditor._get_selected_slot_index self < NUM_SLOTS_TOTAL ∧
        ∃ f, MainEditor.vars self = fields_map Some f ∧ 0 ≤ name f ≤ 65535)) ∧
  (∀ fs self,
     fg (MainEditor.status_label (MainEditor.create_unit_mod fs self).2) = red ↔
     MainEditor.unit_mem self = None ∨
     writable fs (mod_file_name (MainEditor.modname self)) = false) ∧
  (∀ file_path fs mm,
     file_path ≠ "" →
     (fg (ModManager.mod_status (ModManager.enable_mod file_path fs mm).2) = red ↔
      ¬ (∃ data iso, fs !! file_path = Some (File data) ∧
                     len data = ModManager.block_size mm ∧
                     fs !! ModManager.iso_path mm = Some (File iso) ∧
                     0 ≤ ModManager.iso_unit_offset mm)) ∧
     (fg (ModManager.mod_status (ModManager.disable_mod file_path fs mm).2) = red ↔
      ¬ (∃ data iso, fs !! file_path = Some (File data) ∧
                     len data = ModManager.block_size mm ∧
                     fs !! ModManager.iso_path mm = Some (File iso) ∧
                     0 ≤ ModManager.iso_unit_offset mm))).
Proof.
  split; [apply load_not_selected|]. split; [apply load_not_a_file|].
  split; [apply load_no_signature|]. split; [apply load_short|].
  split; [apply submit_not_loaded|]. split; [apply submit_refused|].
  split; [apply create_unit_mod_not_loaded|]. split; [apply create_unit_mod_refused|].
  split; [apply apply_refused|].
  split; [apply load_fails_iff|]. split; [apply submit_fails_iff|].
  split; [apply create_unit_mod_fails_iff|]. apply apply_fails_iff.
Qed.

Lemma failed_operation_state_witness :
  MainEditor._load_unit_data_in_memory sample_fs loaded_editor
  = (sample_fs, MainEditor.config NoISOSelected red loaded_editor) ∧
  MainEditor._load_unit_data_in_memory sample_fs
    (MainEditor.set_dw_iso "/iso/none.iso" loaded_editor)
  = (sample_fs,
     MainEditor.config SelectedISONotFound red
       (MainEditor.set_dw_iso "/iso/none.iso" loaded_editor)) ∧
  MainEditor._load_unit_data_in_memory sample_fs
    (MainEditor.set_dw_iso "/iso/b.iso" loaded_editor)
  = (sample_fs,
     MainEditor.config CouldNotLocate red
       (MainEditor.set_iso_unit_offset None
          (MainEditor.set_unit_mem None (MainEditor.set_dw_iso "/iso/b.iso" loaded_editor)))) ∧
  MainEditor._load_unit_data_in_memory sample_fs
    (MainEditor.set_dw_iso "/iso/c.iso" loaded_editor)
  = (sample_fs,
     MainEditor.config
       (UnexpectedEOF 19690
          (len (drop (Z.to_nat (Z.of_nat (Z.to_nat 7990) + 976)) split_image))) red
       (MainEditor.set_iso_unit_offset None
          (MainEditor.set_unit_mem None (MainEditor.set_dw_iso "/iso/c.iso" loaded_editor)))) ∧
  MainEditor.submit_unit MainEditor.init
  = MainEditor.config UnitDataNotLoaded red MainEditor.init ∧
  (∃ e, MainEditor.submit_unit (editor_with name_70000 "0x0")
        = MainEditor.config (ErrorWithEntries e) red (editor_with name_70000 "0x0")) ∧
  MainEditor.create_unit_mod sample_fs MainEditor.init
  = (sample_fs, MainEditor.config UnitDataNotLoaded red MainEditor.init) ∧
  (∃ e, MainEditor.create_unit_mod sample_fs (MainEditor.set_modname "nodir/x" loaded_editor)
        = (sample_fs,
           MainEditor.config (ErrorCreatingMod "nodir/x.dw5xlemod" e) red
             (MainEditor.set_modname "nodir/x" loaded_editor))) ∧
  (∃ e, ModManager.enable_mod "/mods/none.dw5xlemod" sample_fs
          (ModManager.new "/iso/a.iso" 992 19690)
        = (sample_fs, ModManager.config (ErrorEnablingMod e) red
                        (ModManager.new "/iso/a.iso" 992 19690))).
Proof.
  destruct failed_operation_state
    as (Hnone & Hnofile & Hnosig & Hshort & Hsubmit0 & Hsubmit & Hdump0 & Hdump & Happly & _).
  split; [apply Hnone; reflexivity|].
  split; [apply Hnofile; [discriminate | reflexivity]|].
  split.
  { apply (Hnosig sample_fs (MainEditor.set_dw_iso "/iso/b.iso" loaded_editor) [x01; x02; x03]).
    - discriminate.
    - reflexivity.
    - apply no_occurrenceb_spec; [done | vm_compute; reflexivity]. }
  split.
  { apply (Hshort sample_fs (MainEditor.set_dw_iso "/iso/c.iso" loaded_editor)
             split_image (Z.to_nat 7990)).
    - discriminate.
    - reflexivity.
    - apply first_occurrenceb_spec. vm_compute. reflexivity.
    - vm_compute. reflexivity. }
  split; [apply Hsubmit0; reflexivity|].
  split.
  { apply (Hsubmit (editor_with name_70000 "0x0")
             (BytesIO.new (bytearray (SLOT_SIZE * NUM_SLOTS_TOTAL))) eq_refl).
    intros (_ & f & Hvars & Hname).
    assert (name f = 70000) as Hf by (by injection Hvars as <-).
    lia. }
  split; [apply Hdump0; reflexivity|].
  split.
  { apply (Hdump sample_fs (MainEditor.set_modname "nodir/x" loaded_editor)
             (BytesIO.new (bytearray (SLOT_SIZE * NUM_SLOTS_TOTAL))) eq_refl).
    vm_compute. reflexivity. }
  apply (Happly "/mods/none.dw5xlemod" sample_fs (ModManager.new "/iso/a.iso" 992 19690)).
  - discriminate.
  - intros (data & iso & Hfile & _). vm_compute in Hfile. discriminate Hfile.
Defined.

(** ** Applying a block: [enable_mod] and [disable_mod] *)

Lemma write_at_inside (old : list byte) (pos : nat) (b : list byte) :
  (pos + length b ≤ length old)%nat →
  write_at old pos b = take pos old ++ b ++ drop (pos + length b) old.
Proof.
  intros Hin. destruct b as [|x b].
  - simpl. rewrite Nat.add_0_r. by rewrite take_drop.
  - unfold write_at. by replace (pos - length old)%nat with 0%nat by lia.
Qed.

Lemma write_at_length_max (old : list byte) (pos : nat) (b : list byte) :
  b ≠ [] → length (write_at old pos b) = (length old `max` (pos + length b))%nat.
Proof.
  intros Hb. destruct b as [|x b]; [done|]. unfold write_at.
  rewrite !length_app, length_take, length_replicate, length_drop. lia.
Qed.

(** C5 as stated fails: the image /iso/unit.dw5xlemod is 20687 bytes long
    when it is loaded (table offset 992); the dump under the mod name
    /iso/unit writes the 19690-byte table over it; enabling that 19690-byte
    block at offset 992 reports success and leaves the image 20682 bytes
    long, not 19690. *)
Lemma enable_mod_grows_image :
  file_len mod_named_fs "/iso/unit.dw5xlemod" = Some 20687 ∧
  MainEditor.iso_unit_offset mod_named_loaded.2 = Some 992 ∧
  MainEditor.status_label mod_named_dumped.2
    = Status (ModFileCreated "/iso/unit.dw5xlemod") green ∧
  file_len mod_named_dumped.1 "/iso/unit.dw5xlemod" = Some 19690 ∧
  (open_mod_manager mod_named_dumped.2).2 = Some mod_named_manager ∧
  ModManager.mod_status mod_named_enabled.2
    = Status (ModEnabled "unit.dw5xlemod") green ∧
  file_len mod_named_enabled.1 "/iso/unit.dw5xlemod" = Some 20682.
Proof. repeat split; vm_compute; reflexivity. Qed.

(** C5 (as the code has it).  For a manager opened by the editor (block
    size 19690, the stored offset) and a chosen file holding [data]: when
    [data] is not 19690 bytes long, enable and disable report the size
    mismatch and leave every file as it is; when it is 19690 bytes long they
    write it into the image at the stored offset, which replaces exactly the
    19690 bytes there and keeps the image's length when the table lies
    within the image (as it does for the image a load took the offset
    from), and otherwise leaves the image offset + 19690 bytes long. *)
Theorem apply_block (self : MainEditor.t) (mm : ModManager.t) (fs : FS)
    (file_path : string) (data : list byte) :
  open_mod_manager self = (self, Some mm) →
  file_path ≠ "" →
  fs !! file_path = Some (File data) →
  (len data ≠ 19690 →
     ModManager.enable_mod file_path fs mm
       = (fs, ModManager.config (ErrorEnablingMod (ModSizeError (len data) 19690)) red mm) ∧
     ModManager.disable_mod file_path fs mm
       = (fs, ModManager.config (ErrorDisablingMod (BackupSizeError (len data) 19690)) red mm)) ∧
  (len data = 19690 →
     ∀ iso : list byte,
       fs !! ModManager.iso_path mm = Some (File iso) →
       0 ≤ ModManager.iso_unit_offset mm →
       let offset := Z.to_nat (ModManager.iso_unit_offset mm) in
       let written := write_at iso offset data in
       ModManager.enable_mod file_path fs mm
         = (<[ModManager.iso_path mm := File written]> fs,
            ModManager.config (ModEnabled (basename file_path)) green mm) ∧
       ModManager.disable_mod file_path fs mm
         = (<[ModManager.iso_path mm := File written]> fs,
            ModManager.config (BackupApplied (basename file_path)) green mm) ∧
       len written = Z.max (len iso) (ModManager.iso_unit_offset mm + 19690) ∧
       (ModManager.iso_unit_offset mm + 19690 ≤ len iso →
        written = take offset iso ++ data ++ drop (offset + Z.to_nat 19690) iso ∧
        len written = len iso)).
Proof.
  intros Hopen Hpath Hfile.
  assert (ModManager.block_size mm = 19690) as Hsize.
  { unfold open_mod_manager in Hopen.
    destruct (MainEditor.iso_unit_offset self); injection Hopen as Hmm; [|done].
    by rewrite <- Hmm. }
  apply String.eqb_neq in Hpath.
  unfold ModManager.enable_mod, ModManager.disable_mod, read_file.
  rewrite Hpath, Hfile, Hsize. cbn [mbind result_bind].
  split.
  - intros Hlen. by destruct (Z.eqb_spec (len data) 19690).
  - intros Hlen iso Hiso Hpos. cbn zeta.
    destruct (Z.eqb_spec (len data) 19690); [|done]. cbn [negb].
    unfold patch_file. rewrite Hiso.
    destruct (Z.ltb_spec (ModManager.iso_unit_offset mm) 0); [lia|].
    assert (length data = Z.to_nat 19690) as Hdata by (unfold len in Hlen; lia).
    assert (data ≠ []) as Hne by (intros ->; discriminate Hdata).
    split; [done|]. split; [done|]. split.
    + unfold len. rewrite write_at_length_max by done. rewrite Hdata. lia.
    + intros Hfit. rewrite write_at_inside by (unfold len in *; lia).
      rewrite Hdata. split; [done|].
      unfold len in *. rewrite !length_app, length_take, length_drop. lia.
Qed.

Lemma apply_block_witness :
  ModManager.enable_mod "/mods/short.dw5xlemod" sample_fs
    (ModManager.new "/iso/a.iso" 992 (SLOT_SIZE * NUM_SLOTS_TOTAL))
  = (sample_fs,
     ModManager.config (ErrorEnablingMod (ModSizeError 2 19690)) red
       (ModManager.new "/iso/a.iso" 992 (SLOT_SIZE * NUM_SLOTS_TOTAL))) ∧
  ModManager.enable_mod "/mods/full.dw5xlemod" sample_fs
    (ModManager.new "/iso/a.iso" 992 (SLOT_SIZE * NUM_SLOTS_TOTAL))
  = (<["/iso/a.iso" := File (write_at sample_image (Z.to_nat 992)
                               (replicate (Z.to_nat 19690) x09))]> sample_fs,
     ModManager.config (ModEnabled (basename "/mods/full.dw5xlemod")) green
       (ModManager.new "/iso/a.iso" 992 (SLOT_SIZE * NUM_SLOTS_TOTAL))) ∧
  len (write_at sample_image (Z.to_nat 992) (replicate (Z.to_nat 19690) x09))
  = len sample_image.
Proof.
  split.
  - refine (proj1 (proj1 (apply_block located_editor
      (ModManager.new "/iso/a.iso" 992 (SLOT_SIZE * NUM_SLOTS_TOTAL))
      sample_fs "/mods/short.dw5xlemod" [x00; x01] _ _ _) _)).
    + reflexivity.
    + discriminate.
    + reflexivity.
    + vm_compute. discriminate.
  - destruct (proj2 (apply_block located_editor
      (ModManager.new "/iso/a.iso" 992 (SLOT_SIZE * NUM_SLOTS_TOTAL))
      sample_fs "/mods/full.dw5xlemod" (replicate (Z.to_nat 19690) x09)
      eq_refl ltac:(discriminate) eq_refl) ltac:(vm_compute; reflexivity)
      sample_image eq_refl ltac:(vm_compute; discriminate))
      as (Henable & _ & _ & Hfit).
    split; [exact Henable|].
    apply Hfit. vm_compute. discriminate.
Defined.

(** * Further properties of the tool *)

(** ** The locator returns only real signatures *)

(** X1.  Whatever [locate] returns is justified by the image: an offset it
    returns is 0x3D0 past the first occurrence of the signature, and it
    returns nothing only when the signature occurs nowhere. *)
Theorem locate_characterization (content : list byte) :
  (∀ off, locate content = Some off ↔
          ∃ P, first_occurrence AOB_PATTERN content P ∧ off = Z.of_nat P + 0x3D0) ∧
  (locate content = None ↔ no_occurrence AOB_PATTERN content).
Proof.
  split.
  - intros off. split; [apply locate_some_inv|].
    intros (P & Hfirst & ->). by apply locate_at_first_occurrence.
  - split; [apply locate_none_inv | apply locate_no_occurrence].
Qed.

(** ** What a successful load establishes *)

Section load_success_facts.
Import MainEditor.

Lemma first_occurrence_fits content P :
  first_occurrence AOB_PATTERN content P → (P + 32 ≤ length content)%nat.
Proof. intros [Hocc _]. by apply occurs_at_bound in Hocc. Qed.

Lemma load_found fs self content P :
  dw_iso self ≠ "" →
  fs !! dw_iso self = Some (File content) →
  first_occurrence AOB_PATTERN content P →
  Z.of_nat P + 0x3D0 + total_bytes ≤ len content →
  let off := Z.of_nat P + 0x3D0 in
  let table := take (Z.to_nat total_bytes) (drop (Z.to_nat off) content) in
  len table = total_bytes ∧
  _load_unit_data_in_memory fs self
    = (if path_exists fs (backup_path (dw_iso self)) then fs
       else <[backup_path (dw_iso self) := File table]> fs,
       config UnitBlockLoaded green
         (set_unit_mem (Some (BytesIO.new table)) (set_iso_unit_offset (Some off) self))).
Proof.
  intros Hne Hfile Hfirst Hfit off table.
  assert (len table = total_bytes) as Hlen.
  { subst table off. unfold len, total_bytes in *. rewrite length_take, length_drop.
    change (SLOT_SIZE * NUM_SLOTS_TOTAL) with 19690 in *. lia. }
  split; [done|].
  apply locate_at_first_occurrence in Hfirst.
  destruct (load_cases fs self) as [[He _] | [(_ & Hnf & _) | [(c & _ & Hc & Hl & _) | Hfound]]].
  - done.
  - unfold isfile in Hnf. by rewrite Hfile in Hnf.
  - rewrite Hfile in Hc. injection Hc as <-. congruence.
  - destruct Hfound as (c & o & _ & Hc & Hl & Hcase).
    rewrite Hfile in Hc. injection Hc as <-. rewrite Hfirst in Hl. injection Hl as <-.
    destruct Hcase as [[Hbad _] | [_ ->]]; done.
Qed.
End load_success_facts.

Lemma load_success_inv (fs : FS) (self : MainEditor.t) :
  MainEditor.status_label (MainEditor._load_unit_data_in_memory fs self).2
    = Status UnitBlockLoaded green →
  ∃ content P,
    MainEditor.dw_iso self ≠ "" ∧
    fs !! MainEditor.dw_iso self = Some (File content) ∧
    first_occurrence AOB_PATTERN content P ∧
    Z.of_nat P + 0x3D0 + total_bytes ≤ len content ∧
    MainEditor._load_unit_data_in_memory fs self
    = (if path_exists fs (MainEditor.backup_path (MainEditor.dw_iso self)) then fs
       else <[MainEditor.backup_path (MainEditor.dw_iso self)
              := File (take (Z.to_nat total_bytes)
                         (drop (Z.to_nat (Z.of_nat P + 0x3D0)) content))]> fs,
       MainEditor.config UnitBlockLoaded green
         (MainEditor.set_unit_mem
            (Some (BytesIO.new (take (Z.to_nat total_bytes)
                                  (drop (Z.to_nat (Z.of_nat P + 0x3D0)) content))))
            (MainEditor.set_iso_unit_offset (Some (Z.of_nat P + 0x3D0)) self))).
Proof.
  intros Hok.
  destruct (load_cases fs self) as [[_ H] | [(_ & _ & H) | [(c & _ & _ & _ & H) | Hfound]]];
    try (rewrite H in Hok; discriminate Hok).
  destruct Hfound as (content & off & Hne & Hfile & Hloc & [[_ H] | [Hlen H]]);
    [rewrite H in Hok; discriminate Hok|].
  destruct (locate_some_inv _ _ Hloc) as (P & Hfirst & ->).
  exists content, P. do 3 (split; [done|]). split; [|done].
  unfold len, total_bytes in *. rewrite length_take, length_drop in Hlen.
  change (SLOT_SIZE * NUM_SLOTS_TOTAL) with 19690 in *. lia.
Qed.

Lemma load_keeps_files (fs : FS) (path backup : string) (n : node) (table : list byte) :
  fs !! path = Some n →
  (if path_exists fs backup then fs else <[backup := File table]> fs) !! path = Some n.
Proof.
  intros Hfile. destruct (path_exists fs backup) eqn:Hex; [done|].
  rewrite lookup_insert_ne; [done|].
  intros ->. unfold path_exists in Hex. by rewrite Hfile in Hex.
Qed.

(** X2.  After a load that reports success, the stored offset is 0x3D0 past
    the first signature of the selected image, the 19690-byte table lies
    within the image, the buffer holds exactly those bytes of the image at
    position 0, and the image file itself is as it was. *)
Theorem load_success_state (fs : FS) (self : MainEditor.t) :
  MainEditor.status_label (MainEditor._load_unit_data_in_memory fs self).2
    = Status UnitBlockLoaded green →
  ∃ content P,
    fs !! MainEditor.dw_iso self = Some (File content) ∧
    first_occurrence AOB_PATTERN content P ∧
    Z.of_nat P + 0x3D0 + 19690 ≤ len content ∧
    MainEditor.iso_unit_offset (MainEditor._load_unit_data_in_memory fs self).2
      = Some (Z.of_nat P + 0x3D0) ∧
    MainEditor.unit_mem (MainEditor._load_unit_data_in_memory fs self).2
      = Some (BytesIO.new (take (Z.to_nat 19690) (drop (P + Z.to_nat 0x3D0) content))) ∧
    (MainEditor._load_unit_data_in_memory fs self).1 !! MainEditor.dw_iso self
      = Some (File content).
Proof.
  intros Hok.
  destruct (load_success_inv fs self Hok) as (content & P & _ & Hfile & Hfirst & Hfit & ->).
  exists content, P. cbn [fst snd].
  replace (P + Z.to_nat 976)%nat with (Z.to_nat (Z.of_nat P + 976)) by lia.
  do 4 (split; [done|]). split; [done|]. by apply load_keeps_files.
Qed.

Lemma load_success_state_witness :
  ∃ content P,
    sample_fs !! "/iso/a.iso" = Some (File content) ∧
    first_occurrence AOB_PATTERN content P ∧
    Z.of_nat P + 0x3D0 + 19690 ≤ len content.
Proof.
  destruct (load_success_state sample_fs (MainEditor.set_dw_iso "/iso/a.iso" MainEditor.init))
    as (content & P & Hfile & Hfirst & Hfit & _).
  - vm_compute. reflexivity.
  - exists content, P. exact (conj Hfile (conj Hfirst Hfit)).
Defined.

(** ** Choosing an image: [ask_file] *)

Section ask_file_facts.
Import MainEditor.

Lemma unit_display_first_slot self mem :
  unit_mem self = Some mem →
  (22 ≤ length (BytesIO.buf mem))%nat →
  unit_display 0 self
    = config (LoadedSlot 0 0) green
        (set_vars (fields_map Some (decode (take 22 (BytesIO.buf mem))))
           (set_unit_mem (Some (BytesIO.mk (BytesIO.buf mem) 22)) self)).
Proof.
  intros Hmem Hlen. unfold unit_display. rewrite Hmem.
  change (negb ((0 <=? 0) && (0 <? NUM_SLOTS_TOTAL))) with false. cbn iota.
  unfold BytesIO.read, BytesIO.seek. cbn [BytesIO.buf BytesIO.pos].
  change (Z.to_nat (0 * SLOT_SIZE)) with 0%nat. change (Z.to_nat SLOT_SIZE) with 22%nat.
  rewrite drop_0.
  assert (length (take 22 (BytesIO.buf mem)) = 22%nat) as Htake
    by (rewrite length_take; lia).
  unfold len. rewrite Htake. done.
Qed.

Lemma table_has_first_slot (table : list byte) :
  len table = 19690 → (22 ≤ length table)%nat.
Proof. unfold len. lia. Qed.
End ask_file_facts.

(** X3.  Choosing an image whose table can be read loads it and shows slot
    0: the path, the offset (0x3D0 past the first signature) and the 19690
    table bytes are stored, the buffer stands after the first record, the
    entries show the first 22 table bytes decoded per the layout, and the
    status reports slot 0 at offset 0. *)
Theorem ask_file_shows_first_slot (path : string) (fs : FS) (self : MainEditor.t)
    (content : list byte) (P : nat) :
  path ≠ "" →
  fs !! path = Some (File content) →
  first_occurrence AOB_PATTERN content P →
  Z.of_nat P + 0x3D0 + 19690 ≤ len content →
  let table := take (Z.to_nat 19690) (drop (Z.to_nat (Z.of_nat P + 0x3D0)) content) in
  let after := MainEditor.ask_file path fs self in
  MainEditor.dw_iso after.2 = path ∧
  MainEditor.iso_unit_offset after.2 = Some (Z.of_nat P + 0x3D0) ∧
  MainEditor.unit_mem after.2 = Some (BytesIO.mk table 22) ∧
  MainEditor.vars after.2 = fields_map Some (MainEditor.decode (take 22 table)) ∧
  MainEditor.status_label after.2 = Status (LoadedSlot 0 0) green.
Proof.
  intros Hpath Hfile Hfirst Hfit table after. subst after.
  unfold MainEditor.ask_file. apply String.eqb_neq in Hpath as Hneq. rewrite Hneq.
  destruct (load_found fs
              (MainEditor.config (LoadedISO (basename path)) green
                 (MainEditor.set_dw_iso path self)) content P Hpath Hfile Hfirst Hfit)
    as [Hlen ->].
  cbn [MainEditor.unit_mem MainEditor.config MainEditor.set_unit_mem].
  rewrite (unit_display_first_slot _ (BytesIO.new table)); [done | reflexivity |].
  apply table_has_first_slot, Hlen.
Qed.

Lemma ask_file_shows_first_slot_witness :
  MainEditor.dw_iso first_load.2 = "/iso/a.iso" ∧
  MainEditor.iso_unit_offset first_load.2 = Some 992 ∧
  MainEditor.status_label first_load.2 = Status (LoadedSlot 0 0) green.
Proof.
  destruct (ask_file_shows_first_slot "/iso/a.iso" sample_fs MainEditor.init
              sample_image (Z.to_nat 16)) as (H1 & H2 & _ & _ & H5).
  - discriminate.
  - reflexivity.
  - apply first_occurrenceb_spec. vm_compute. reflexivity.
  - vm_compute. discriminate.
  - exact (conj H1 (conj H2 H5)).
Defined.

(** X4.  Choosing a path that is not a file while a full table is loaded
    stores the new path but keeps the old table and offset, and the
    "Selected ISO not found." message is replaced at once by the green
    status of displaying slot 0 of the old table. *)
Theorem ask_file_not_a_file_keeps_old_table (path : string) (fs : FS)
    (self : MainEditor.t) (mem : BytesIO.t) :
  path ≠ "" →
  isfile fs path = false →
  MainEditor.unit_mem self = Some mem →
  len (BytesIO.buf mem) = 19690 →
  let after := MainEditor.ask_file path fs self in
  after.1 = fs ∧
  MainEditor.dw_iso after.2 = path ∧
  MainEditor.iso_unit_offset after.2 = MainEditor.iso_unit_offset self ∧
  MainEditor.unit_mem after.2 = Some (BytesIO.mk (BytesIO.buf mem) 22) ∧
  MainEditor.status_label after.2 = Status (LoadedSlot 0 0) green.
Proof.
  intros Hpath Hnf Hmem Hlen after. subst after.
  unfold MainEditor.ask_file. apply String.eqb_neq in Hpath as Hneq. rewrite Hneq.
  destruct (load_cases fs
              (MainEditor.config (LoadedISO (basename path)) green
                 (MainEditor.set_dw_iso path self)))
    as [[He _] | [(_ & _ & ->) | [(c & _ & Hc & _) | (c & o & _ & Hc & _)]]].
  - done.
  - cbn [MainEditor.unit_mem MainEditor.config MainEditor.set_dw_iso].
    rewrite Hmem. rewrite (unit_display_first_slot _ mem); [done | done |].
    apply table_has_first_slot, Hlen.
  - unfold isfile in Hnf.
    cbn [MainEditor.dw_iso MainEditor.config MainEditor.set_dw_iso] in Hc.
    by rewrite Hc in Hnf.
  - unfold isfile in Hnf.
    cbn [MainEditor.dw_iso MainEditor.config MainEditor.set_dw_iso] in Hc.
    by rewrite Hc in Hnf.
Qed.

Lemma ask_file_not_a_file_keeps_old_table_witness :
  MainEditor.dw_iso (MainEditor.ask_file "/iso/missing.iso" sample_fs loaded_editor).2
    = "/iso/missing.iso" ∧
  MainEditor.status_label (MainEditor.ask_file "/iso/missing.iso" sample_fs loaded_editor).2
    = Status (LoadedSlot 0 0) green.
Proof.
  destruct (ask_file_not_a_file_keeps_old_table "/iso/missing.iso" sample_fs loaded_editor
              (BytesIO.new (bytearray (SLOT_SIZE * NUM_SLOTS_TOTAL))))
    as (_ & H2 & _ & _ & H5).
  - discriminate.
  - vm_compute. reflexivity.
  - reflexivity.
  - vm_compute. reflexivity.
  - exact (conj H2 H5).
Defined.

(** ** More on the codec *)

Lemma byte_value_range b : 0 ≤ byte_value b < 256.
Proof. unfold byte_value. pose proof (Byte.to_N_bounded b). lia. Qed.

Lemma byte_of_value b : byte_of (byte_value b) = b.
Proof. unfold byte_of, byte_value. by rewrite N2Z.id, Byte.of_to_N. Qed.

Lemma byte_of_masked_value b : byte_of (Z.land (byte_value b) 0xFF) = b.
Proof.
  rewrite land_255_id; [apply byte_of_value|].
  pose proof (byte_value_range b). unfold is_byte. lia.
Qed.

Lemma little_endian_pair a b :
  0 ≤ a < 256 → 0 ≤ b < 256 →
  (a + 256 * (b + 256 * 0)) mod 256 = a ∧ (a + 256 * (b + 256 * 0)) / 256 mod 256 = b.
Proof. intros Ha Hb. split; Z.div_mod_to_equations; lia. Qed.

Lemma write_at_same (old : list byte) (pos n : nat) :
  (pos + n ≤ length old)%nat →
  write_at old pos (take n (drop pos old)) = old.
Proof.
  intros Hfit.
  assert (length (take n (drop pos old)) = n) as Hlen
    by (rewrite length_take, length_drop; lia).
  rewrite write_at_inside by lia. rewrite Hlen.
  rewrite <- (take_drop pos old) at 4. f_equal.
  rewrite <- (take_drop n (drop pos old)) at 2. f_equal.
  by rewrite drop_drop.
Qed.

Section codec_more.
Import MainEditor.

(** The 22 bytes of slot [i] of a buffer. *)
Lemma slot_length (buf : list byte) i :
  len buf = total_bytes → 0 ≤ i < NUM_SLOTS_TOTAL →
  length (take 22 (drop (Z.to_nat (i * SLOT_SIZE)) buf)) = 22%nat.
Proof.
  unfold len, total_bytes, SLOT_SIZE, NUM_SLOTS_TOTAL. intros Hlen Hi.
  rewrite length_take, length_drop. lia.
Qed.

Lemma unit_display_full self mem i :
  unit_mem self = Some mem →
  len (BytesIO.buf mem) = total_bytes →
  0 ≤ i < NUM_SLOTS_TOTAL →
  unit_display i self
    = config (LoadedSlot i (i * SLOT_SIZE)) green
        (set_vars
           (fields_map Some
              (decode (take 22 (drop (Z.to_nat (i * SLOT_SIZE)) (BytesIO.buf mem)))))
           (set_unit_mem
              (Some (BytesIO.mk (BytesIO.buf mem) (Z.to_nat (i * SLOT_SIZE) + 22))) self)).
Proof.
  intros Hmem Hlen Hi. unfold unit_display. rewrite Hmem.
  pose proof (slot_length _ _ Hlen Hi) as Hslot.
  apply slot_guard in Hi. rewrite Hi.
  unfold BytesIO.read, BytesIO.seek. cbn [BytesIO.buf BytesIO.pos].
  change (Z.to_nat SLOT_SIZE) with 22%nat.
  unfold len at 1. rewrite Hslot. done.
Qed.

Lemma decode_fits (data : list byte) :
  0 ≤ name (decode data) ≤ 0xFFFF ∧ byte_fields (decode data).
Proof.
  split.
  - unfold decode. cbn [name].
    unfold int_from_bytes_little.
    destruct data as [|b0 [|b1 data]]; cbn [take foldr]; rewrite ?take_0; cbn [foldr];
      try pose proof (byte_value_range b0); try pose proof (byte_value_range b1); lia.
  - unfold byte_fields, is_byte, decode, getitem.
    cbn [unknown1 voice model color moveset horse life attack defense bow mounted speed
         strafespeed jump ailevel aitype unknown2 weapon weaponlevel orb].
    repeat split;
      match goal with |- context [byte_value ?b] => pose proof (byte_value_range b) end; lia.
Qed.

Lemma record_of_decode (data : list byte) :
  length data = 22%nat → record_of (decode data) = data.
Proof.
  intros Hlen.
  do 22 (destruct data as [|? data]; [discriminate Hlen|]).
  destruct data; [|discriminate Hlen].
  unfold record_of, decode, getitem.
  cbn [name unknown1 voice model color moveset horse life attack defense bow mounted speed
       strafespeed jump ailevel aitype unknown2 weapon weaponlevel orb
       take lookup list_lookup default from_option id int_from_bytes_little foldr].
  rewrite !byte_of_masked_value.
  match goal with
  | |- context [byte_value ?a + 256 * (byte_value ?b + 256 * 0)] =>
    destruct (little_endian_pair (byte_value a) (byte_value b)
                (byte_value_range a) (byte_value_range b)) as [-> ->]
  end.
  by rewrite !byte_of_value.
Qed.

End codec_more.

(** X5.  Displaying a slot of a full buffer and submitting it unedited
    succeeds and leaves every byte of the buffer as it was: encoding what
    was decoded gives the slot back. *)
Theorem display_then_submit_keeps_bytes (self : MainEditor.t) (mem : BytesIO.t) :
  MainEditor.unit_mem self = Some mem →
  len (BytesIO.buf mem) = 19690 →
  0 ≤ MainEditor._get_selected_slot_index self < NUM_SLOTS_TOTAL →
  let i := MainEditor._get_selected_slot_index self in
  let after := MainEditor.submit_unit (MainEditor.unit_display i self) in
  MainEditor.status_label after = Status (ValuesWritten i) green ∧
  BytesIO.buf <$> MainEditor.unit_mem after = Some (BytesIO.buf mem).
Proof.
  intros Hmem Hlen Hi i after. subst after.
  rewrite (unit_display_full self mem i Hmem Hlen Hi).
  set (slot := take 22 (drop (Z.to_nat (i * SLOT_SIZE)) (BytesIO.buf mem))).
  pose proof (slot_length _ _ Hlen Hi) as Hslot. fold i slot in Hslot.
  destruct (decode_fits slot) as [Hname _].
  unfold MainEditor.submit_unit.
  cbn [MainEditor.unit_mem MainEditor.config MainEditor.set_vars MainEditor.set_unit_mem].
  rewrite (encode_ok _ _ (MainEditor.decode slot)); [| done | done | done].
  change (MainEditor._get_selected_slot_index _) with i.
  rewrite record_of_decode by done.
  cbn [MainEditor.status_label MainEditor.config MainEditor.unit_mem
       MainEditor.set_unit_mem fmap option_fmap option_map].
  split; [done|]. f_equal.
  unfold BytesIO.write, BytesIO.seek. cbn [BytesIO.buf BytesIO.pos]. subst slot.
  apply write_at_same.
  unfold len, total_bytes, SLOT_SIZE, NUM_SLOTS_TOTAL in *. lia.
Qed.

Lemma display_then_submit_keeps_bytes_witness :
  MainEditor.status_label
    (MainEditor.submit_unit (MainEditor.unit_display 2 (editor_with sample_fields "0x2")))
  = Status (ValuesWritten 2) green.
Proof.
  apply (display_then_submit_keeps_bytes (editor_with sample_fields "0x2")
           (BytesIO.new (bytearray (SLOT_SIZE * NUM_SLOTS_TOTAL)))).
  - reflexivity.
  - vm_compute. reflexivity.
  - by_computation.
Defined.

(** X6.  With a buffer loaded, a submit succeeds exactly when the selected
    slot is in [0, 895), each of the 21 entries holds a number and Name is in
    [0, 65535]; the slot's 22 bytes then are the record of the layout table:
    Name little-endian in bytes 0-1, the low 8 bits of each other field
    after it. *)
Theorem submit_success_iff (self : MainEditor.t) (mem : BytesIO.t) :
  MainEditor.unit_mem self = Some mem →
  let i := MainEditor._get_selected_slot_index self in
  (fg (MainEditor.status_label (MainEditor.submit_unit self)) = green ↔
   0 ≤ i < NUM_SLOTS_TOTAL ∧
   ∃ f, MainEditor.vars self = fields_map Some f ∧ 0 ≤ name f ≤ 65535) ∧
  (∀ f, 0 ≤ i < NUM_SLOTS_TOTAL →
        MainEditor.vars self = fields_map Some f →
        0 ≤ name f ≤ 65535 →
        ∃ mem', MainEditor.unit_mem (MainEditor.submit_unit self) = Some mem' ∧
                take 22 (drop (Z.to_nat (i * SLOT_SIZE)) (BytesIO.buf mem')) = record_of f).
Proof.
  intros Hmem i. split.
  - unfold MainEditor.submit_unit. rewrite Hmem. split.
    + destruct (MainEditor.encode self mem) as [[j mem']|e] eqn:Henc; [|discriminate].
      intros _. split.
      * apply encode_inv in Henc as (-> & Hj & _). done.
      * by apply encode_entries in Henc.
    + intros (Hi & f & Hvars & Hname). by rewrite (encode_ok _ _ f).
  - intros f Hi Hvars Hname. unfold MainEditor.submit_unit.
    rewrite Hmem, (encode_ok _ _ f) by done. eexists. split; [done|].
    unfold BytesIO.write, BytesIO.seek. cbn [BytesIO.buf BytesIO.pos].
    apply (write_at_read_back _ _ (record_of f)).
Qed.

Lemma submit_success_iff_witness :
  ∃ mem', MainEditor.unit_mem (MainEditor.submit_unit (editor_with sample_fields "0x2"))
            = Some mem' ∧
          take 22 (drop (Z.to_nat (2 * SLOT_SIZE)) (BytesIO.buf mem'))
            = record_of sample_fields.
Proof.
  apply (proj2 (submit_success_iff (editor_with sample_fields "0x2")
                  (BytesIO.new (bytearray (SLOT_SIZE * NUM_SLOTS_TOTAL))) eq_refl)
           sample_fields).
  - by_computation.
  - reflexivity.
  - by_computation.
Defined.

(** X7.  Displaying a slot in [0, 895) of a full 19690-byte buffer always
    succeeds: it shows the slot's 22 bytes decoded per the layout, Name within
    [0, 65535] and every other field within [0, 255], and leaves the
    buffer's bytes as they were. *)
Theorem unit_display_full_buffer (self : MainEditor.t) (mem : BytesIO.t) (i : Z) :
  MainEditor.unit_mem self = Some mem →
  len (BytesIO.buf mem) = 19690 →
  0 ≤ i < NUM_SLOTS_TOTAL →
  let after := MainEditor.unit_display i self in
  let shown := MainEditor.decode (take 22 (drop (Z.to_nat (i * SLOT_SIZE)) (BytesIO.buf mem))) in
  MainEditor.status_label after = Status (LoadedSlot i (i * SLOT_SIZE)) green ∧
  MainEditor.vars after = fields_map Some shown ∧
  0 ≤ name shown ≤ 65535 ∧ byte_fields shown ∧
  BytesIO.buf <$> MainEditor.unit_mem after = Some (BytesIO.buf mem).
Proof.
  intros Hmem Hlen Hi after shown. subst after.
  rewrite (unit_display_full self mem i Hmem Hlen Hi).
  destruct (decode_fits (take 22 (drop (Z.to_nat (i * SLOT_SIZE)) (BytesIO.buf mem))))
    as [Hname Hbytes].
  done.
Qed.

Lemma unit_display_full_buffer_witness :
  MainEditor.status_label (MainEditor.unit_display 894 loaded_editor)
  = Status (LoadedSlot 894 (894 * SLOT_SIZE)) green.
Proof.
  apply (unit_display_full_buffer loaded_editor
           (BytesIO.new (bytearray (SLOT_SIZE * NUM_SLOTS_TOTAL))) 894).
  - reflexivity.
  - vm_compute. reflexivity.
  - by_computation.
Defined.

(** X8.  With a buffer loaded and a selected slot outside [0, 895), a submit
    reports the slot-range error whatever the entries hold (the slot is
    checked before Name is read) and changes nothing but the status label. *)
Theorem submit_slot_out_of_range (self : MainEditor.t) (mem : BytesIO.t) :
  MainEditor.unit_mem self = Some mem →
  ¬ (0 ≤ MainEditor._get_selected_slot_index self < NUM_SLOTS_TOTAL) →
  MainEditor.submit_unit self
  = MainEditor.config
      (ErrorWithEntries (SlotRangeError (MainEditor._get_selected_slot_index self))) red self.
Proof.
  intros Hmem Hslot. unfold MainEditor.submit_unit, MainEditor.encode.
  apply slot_guard_out in Hslot. by rewrite Hmem, Hslot.
Qed.

Lemma submit_slot_out_of_range_witness :
  MainEditor.submit_unit (editor_with name_70000 "0x37f")
  = MainEditor.config (ErrorWithEntries (SlotRangeError 895)) red
      (editor_with name_70000 "0x37f").
Proof.
  apply (submit_slot_out_of_range (editor_with name_70000 "0x37f")
           (BytesIO.new (bytearray (SLOT_SIZE * NUM_SLOTS_TOTAL)))).
  - reflexivity.
  - vm_compute. intros [_ H]. discriminate H.
Defined.

(** ** The slot selector: [hex] and [int(s, 16)] *)

Section selector_facts.

Lemma hex_digit_cases v :
  0 ≤ v < 16 →
  v = 0 ∨ v = 1 ∨ v = 2 ∨ v = 3 ∨ v = 4 ∨ v = 5 ∨ v = 6 ∨ v = 7 ∨
  v = 8 ∨ v = 9 ∨ v = 10 ∨ v = 11 ∨ v = 12 ∨ v = 13 ∨ v = 14 ∨ v = 15.
Proof. lia. Qed.

Lemma hex_digit_value v :
  0 ≤ v < 16 →
  Ascii.eqb (hex_digit v) "_" = false ∧ digit_value (hex_digit v) = Some v.
Proof.
  intros Hv. apply hex_digit_cases in Hv.
  repeat (destruct Hv as [-> | Hv]; [by vm_compute|]). subst v. by vm_compute.
Qed.

Lemma scan_digits_digit base c s p acc k d :
  Ascii.eqb c "_" = false → digit_value c = Some d → d < base →
  scan_digits base (c :: s) p acc k = scan_digits base s false (acc * base + d) (S k).
Proof.
  intros Hus Hval Hd. cbn [scan_digits]. rewrite Hus, Hval.
  by destruct (Z.ltb_spec d base); [|lia].
Qed.

Lemma scan_hex_digits v vs p acc k :
  Forall (λ d, 0 ≤ d < 16) (v :: vs) →
  scan_digits 16 (map hex_digit (v :: vs)) p acc k
  = Some (foldl hex_step (hex_step acc v) vs, (S k + length vs)%nat, []).
Proof.
  revert v p acc k. induction vs as [|w vs IH]; intros v p acc k Hall;
    apply Forall_cons in Hall as [Hv Hall];
    destruct (hex_digit_value v Hv) as [Hus Hval];
    rewrite map_cons, (scan_digits_digit _ _ _ _ _ _ v) by (done || lia).
  - cbn [foldl length map scan_digits]. by rewrite Nat.add_0_r.
  - rewrite IH by done. cbn [foldl length]. do 3 f_equal. lia.
Qed.

Lemma hex_digits_spec fuel n acc :
  0 ≤ n < 16 ^ Z.of_nat (S fuel) →
  ∃ v vs, Forall (λ d, 0 ≤ d < 16) (v :: vs) ∧
          hex_digits (S fuel) n acc = map hex_digit (v :: vs) ++ acc ∧
          foldl hex_step 0 (v :: vs) = n.
Proof.
  revert n acc. induction fuel as [|fuel IH]; intros n acc Hn; cbn [hex_digits].
  - change (16 ^ Z.of_nat 1) with 16 in Hn.
    destruct (Z.ltb_spec n 16); [|lia].
    exists n, []. rewrite Z.mod_small by lia. repeat split.
    apply Forall_singleton. lia.
  - destruct (Z.ltb_spec n 16) as [Hsmall | Hbig].
    + exists n, []. rewrite Z.mod_small by lia. repeat split.
      apply Forall_singleton. lia.
    + destruct (IH (n / 16) (hex_digit (n mod 16) :: acc)) as (v & vs & Hall & Heq & Hval).
      { split; [apply Z.div_pos; lia|]. apply Z.div_lt_upper_bound; [lia|].
        replace (Z.of_nat (S (S fuel))) with (Z.succ (Z.of_nat (S fuel))) in Hn by lia.
        rewrite Z.pow_succ_r in Hn by lia. lia. }
      exists v, (vs ++ [n mod 16]). split; [|split].
      * rewrite app_comm_cons. apply Forall_app. split; [done|].
        apply Forall_singleton. apply Z.mod_pos_bound. lia.
      * cbn [hex_digits] in Heq. rewrite Heq.
        rewrite app_comm_cons, map_app, <- app_assoc. done.
      * rewrite app_comm_cons, foldl_app, Hval. cbn [foldl]. unfold hex_step.
        pose proof (Z.div_mod n 16). lia.
Qed.

Lemma hex_fuel n : 0 ≤ n → n < 16 ^ Z.of_nat (S (Z.to_nat (Z.log2 n))).
Proof.
  intros Hn. destruct (decide (n = 0)) as [-> | Hpos]; [done|].
  pose proof (Z.log2_nonneg n) as Hlog.
  destruct (Z.log2_spec n) as [_ Hlt]; [lia|].
  replace (Z.of_nat (S (Z.to_nat (Z.log2 n)))) with (Z.succ (Z.log2 n)) by lia.
  eapply Z.lt_le_trans; [exact Hlt|].
  apply Z.pow_le_mono_l. lia.
Qed.

(** [int(s, 16)] past a [0x] prefix that a character other than an
    underscore follows. *)
Lemma int_base16_past_prefix c tl :
  Ascii.eqb c "_" = false →
  int_base16 (string_of_list_ascii ("0"%char :: "x"%char :: c :: tl))
  = match scan_digits 16 (c :: tl) false 0 0 with
    | Some (v, S _, rest) =>
      match lstrip rest with
      | [] => Ok (1 * v)
      | _ :: _ => Raise (IntLiteralError (string_of_list_ascii ("0"%char :: "x"%char :: c :: tl)))
      end
    | _ => Raise (IntLiteralError (string_of_list_ascii ("0"%char :: "x"%char :: c :: tl)))
    end.
Proof.
  intros Hc. unfold int_base16. rewrite list_ascii_of_string_of_list_ascii.
  destruct c as [[] [] [] [] [] [] [] []]; try discriminate Hc; reflexivity.
Qed.

Lemma int_base16_prefixed v vs :
  Forall (λ d, 0 ≤ d < 16) (v :: vs) →
  int_base16 (string_of_list_ascii ("0"%char :: "x"%char :: map hex_digit (v :: vs)))
  = Ok (foldl hex_step 0 (v :: vs)).
Proof.
  intros Hall. pose proof (scan_hex_digits v vs false 0 0 Hall) as Hscan.
  apply Forall_cons in Hall as [Hv _]. destruct (hex_digit_value v Hv) as [Hus _].
  rewrite map_cons in *. rewrite int_base16_past_prefix by done.
  rewrite Hscan. cbn [lstrip foldl]. f_equal. unfold hex_step. lia.
Qed.

Lemma int_base16_hex n : 0 ≤ n → int_base16 (hex n) = Ok n.
Proof.
  intros Hn. unfold hex.
  destruct (hex_digits_spec (Z.to_nat (Z.log2 n)) n [])
    as (v & vs & Hall & -> & Hval); [split; [done | by apply hex_fuel]|].
  rewrite app_nil_r, int_base16_prefixed by done. by rewrite Hval.
Qed.
End selector_facts.

(** X9.  Every value the slot selector offers selects its own slot: for
    [0 <= n], [int(hex(n), 16)] is [n], so with the selector on [hex(n)]
    the slot index is [n]. *)
Theorem selector_value_selects_its_slot (self : MainEditor.t) (n : Z) :
  0 ≤ n →
  MainEditor.selected_slot_str self = hex n →
  int_base16 (hex n) = Ok n ∧ MainEditor._get_selected_slot_index self = n.
Proof.
  intros Hn Hstr. pose proof (int_base16_hex n Hn) as Hparse. split; [done|].
  unfold MainEditor._get_selected_slot_index. by rewrite Hstr, Hparse.
Qed.

Lemma selector_value_selects_its_slot_witness :
  int_base16 (hex 894) = Ok 894 ∧
  MainEditor._get_selected_slot_index (editor_with zero_fields "0x37e") = 894.
Proof.
  apply (selector_value_selects_its_slot (editor_with zero_fields "0x37e") 894).
  - lia.
  - reflexivity.
Defined.

(** ** Mods written into the image, read back and undone *)

Section patch_facts.
Implicit Types iso data : list byte.

Lemma patched_length iso offset data :
  (offset + length data ≤ length iso)%nat →
  length (patched iso offset data) = length iso.
Proof.
  intros Hfit. unfold patched.
  rewrite !length_app, length_take, length_drop. lia.
Qed.

Lemma patched_table iso offset data :
  (offset ≤ length iso)%nat →
  take (length data) (drop offset (patched iso offset data)) = data.
Proof.
  intros Hfit. unfold patched.
  rewrite drop_app_length' by (rewrite length_take; lia).
  by rewrite take_app_length.
Qed.

Lemma patched_take iso offset data :
  (offset ≤ length iso)%nat → take offset (patched iso offset data) = take offset iso.
Proof.
  intros Hfit. unfold patched. by rewrite take_app_length' by (rewrite length_take; lia).
Qed.

Lemma patched_drop iso offset data :
  (offset ≤ length iso)%nat →
  drop (offset + length data) (patched iso offset data) = drop (offset + length data) iso.
Proof.
  intros Hfit. unfold patched.
  rewrite drop_app_ge by (rewrite length_take; lia).
  rewrite length_take.
  rewrite drop_app_ge by lia.
  replace (offset + length data - offset `min` length iso - length data)%nat with 0%nat by lia.
  done.
Qed.

(** Writing back the bytes that were there undoes a patch. *)
Lemma patched_restore iso offset data :
  (offset + length data ≤ length iso)%nat →
  patched (patched iso offset data) offset (take (length data) (drop offset iso)) = iso.
Proof.
  intros Hfit.
  assert (length (take (length data) (drop offset iso)) = length data) as Hlen
    by (rewrite length_take, length_drop; lia).
  unfold patched at 1. rewrite Hlen.
  rewrite patched_take, patched_drop by lia.
  rewrite <- (take_drop offset iso) at 4. f_equal.
  rewrite <- (take_drop (length data) (drop offset iso)) at 2. f_equal.
  by rewrite drop_drop.
Qed.


(** A patch past the signature leaves the first signature where it was. *)
Lemma first_occurrence_patched pat iso offset data P :
  pat ≠ [] →
  first_occurrence pat iso P →
  (P + length pat ≤ offset)%nat →
  (offset ≤ length iso)%nat →
  first_occurrence pat (patched iso offset data) P.
Proof.
  intros Hne [Hocc Hmin] Hbefore Hfit.
  assert (∀ q, (q ≤ P)%nat →
            occurs_at pat (patched iso offset data) q ↔ occurs_at pat iso q) as Hsame.
  { intros q Hq. unfold patched.
    rewrite occurs_at_app_l by (rewrite length_take; lia).
    rewrite <- (take_drop offset iso) at 2.
    by rewrite occurs_at_app_l by (rewrite length_take; lia). }
  split.
  - by apply Hsame.
  - intros q Hq Hocc'. apply (Hmin q Hq). apply Hsame; [lia | done].
Qed.

Lemma enable_mod_ok file_path fs (mm : ModManager.t) data iso :
  file_path ≠ "" →
  fs !! file_path = Some (File data) →
  len data = ModManager.block_size mm →
  fs !! ModManager.iso_path mm = Some (File iso) →
  0 ≤ ModManager.iso_unit_offset mm →
  (Z.to_nat (ModManager.iso_unit_offset mm) + length data ≤ length iso)%nat →
  ModManager.enable_mod file_path fs mm
  = (<[ModManager.iso_path mm
       := File (patched iso (Z.to_nat (ModManager.iso_unit_offset mm)) data)]> fs,
     ModManager.config (ModEnabled (basename file_path)) green mm).
Proof.
  intros Hpath Hfile Hlen Hiso Hpos Hfit. apply String.eqb_neq in Hpath.
  unfold ModManager.enable_mod, read_file, patch_file.
  rewrite Hpath, Hfile. cbn [mbind result_bind].
  rewrite Hlen, Z.eqb_refl. cbn [negb]. rewrite Hiso.
  destruct (Z.ltb_spec (ModManager.iso_unit_offset mm) 0); [lia|].
  rewrite write_at_inside by lia. done.
Qed.

Lemma disable_mod_ok file_path fs (mm : ModManager.t) data iso :
  file_path ≠ "" →
  fs !! file_path = Some (File data) →
  len data = ModManager.block_size mm →
  fs !! ModManager.iso_path mm = Some (File iso) →
  0 ≤ ModManager.iso_unit_offset mm →
  (Z.to_nat (ModManager.iso_unit_offset mm) + length data ≤ length iso)%nat →
  ModManager.disable_mod file_path fs mm
  = (<[ModManager.iso_path mm
       := File (patched iso (Z.to_nat (ModManager.iso_unit_offset mm)) data)]> fs,
     ModManager.config (BackupApplied (basename file_path)) green mm).
Proof.
  intros Hpath Hfile Hlen Hiso Hpos Hfit. apply String.eqb_neq in Hpath.
  unfold ModManager.disable_mod, read_file, patch_file.
  rewrite Hpath, Hfile. cbn [mbind result_bind].
  rewrite Hlen, Z.eqb_refl. cbn [negb]. rewrite Hiso.
  destruct (Z.ltb_spec (ModManager.iso_unit_offset mm) 0); [lia|].
  rewrite write_at_inside by lia. done.
Qed.

Lemma backup_path_nonempty (p : string) : MainEditor.backup_path p ≠ "".
Proof.
  unfold MainEditor.backup_path, join.
  set (b := (splitext_root (basename p) ++ "_Original.unitdata")%string).
  assert (b ≠ "") as Hb by (by apply string_app_nonempty).
  destruct b as [|c b]; [done|].
  destruct c as [[] [] [] [] [] [] [] []]; try discriminate.
Qed.
End patch_facts.

Section session_facts.
Import MainEditor.

(** The editor and file system a successful load leaves, and the manager
    the editor then opens. *)
Lemma loaded_session fs self :
  status_label (_load_unit_data_in_memory fs self).2 = Status UnitBlockLoaded green →
  ∃ content P,
    let off := Z.of_nat P + 0x3D0 in
    let table := take (Z.to_nat total_bytes) (drop (Z.to_nat off) content) in
    let fs1 := (_load_unit_data_in_memory fs self).1 in
    let s1 := (_load_unit_data_in_memory fs self).2 in
    dw_iso self ≠ "" ∧
    fs !! dw_iso self = Some (File content) ∧
    first_occurrence AOB_PATTERN content P ∧
    (Z.to_nat off + Z.to_nat total_bytes ≤ length content)%nat ∧
    length table = Z.to_nat total_bytes ∧
    fs1 = (if path_exists fs (backup_path (dw_iso self)) then fs
           else <[backup_path (dw_iso self) := File table]> fs) ∧
    fs1 !! dw_iso self = Some (File content) ∧
    path_exists fs1 (backup_path (dw_iso self)) = true ∧
    dw_iso s1 = dw_iso self ∧
    unit_mem s1 = Some (BytesIO.new table) ∧
    iso_unit_offset s1 = Some off ∧
    modname s1 = modname self ∧
    open_mod_manager s1 = (s1, Some (ModManager.new (dw_iso self) off total_bytes)).
Proof.
  intros Hok.
  destruct (load_success_inv fs self Hok) as (content & P & Hne & Hfile & Hfirst & Hfit & ->).
  exists content, P. cbn zeta. cbn [fst snd].
  assert (Z.to_nat (Z.of_nat P + 976) + Z.to_nat total_bytes ≤ length content)%nat as Hfit'.
  { unfold len, total_bytes in *. change (SLOT_SIZE * NUM_SLOTS_TOTAL) with 19690 in *. lia. }
  do 4 (split; [done|]).
  split; [rewrite length_take, length_drop; lia|].
  split; [done|]. split; [by apply load_keeps_files|].
  split; [|done].
  unfold path_exists. destruct (fs !! backup_path (dw_iso self)) eqn:Hb; [by rewrite Hb|].
  by rewrite lookup_insert_eq.
Qed.
End session_facts.

(** X10.  A mod enabled after a successful load is what the next load of
    the image reads: the manager opens, the enable succeeds, the reload
    finds the table at the same offset, the buffer then holds exactly the
    mod's 19690 bytes, and the reload writes no file. *)
Theorem enable_then_load (fs : FS) (self : MainEditor.t) (file_path : string)
    (data : list byte) :
  let fs1 := (MainEditor._load_unit_data_in_memory fs self).1 in
  let s1 := (MainEditor._load_unit_data_in_memory fs self).2 in
  MainEditor.status_label s1 = Status UnitBlockLoaded green →
  file_path ≠ "" →
  fs !! file_path = Some (File data) →
  len data = 19690 →
  ∃ mm, open_mod_manager s1 = (s1, Some mm) ∧
    let enabled := ModManager.enable_mod file_path fs1 mm in
    let reloaded := MainEditor._load_unit_data_in_memory enabled.1 s1 in
    ModManager.mod_status enabled.2 = Status (ModEnabled (basename file_path)) green ∧
    MainEditor.status_label reloaded.2 = Status UnitBlockLoaded green ∧
    MainEditor.iso_unit_offset reloaded.2 = MainEditor.iso_unit_offset s1 ∧
    MainEditor.unit_mem reloaded.2 = Some (BytesIO.new data) ∧
    reloaded.1 = enabled.1.
Proof.
  intros fs1 s1 Hok Hpath Hfile Hlen.
  destruct (loaded_session fs self Hok)
    as (content & P & Hne & Himg & Hfirst & Hfit & Htable & Hfs1 & Himg1 & Hbackup & Hiso &
        Hmem & Hoff & _ & Hmm).
  fold fs1 s1 in Hfs1, Himg1, Hbackup, Hiso, Hmem, Hoff, Hmm.
  eexists. split; [exact Hmm|].
  assert (fs1 !! file_path = Some (File data)) as Hfile1
    by (rewrite Hfs1; by apply load_keeps_files).
  assert (length data = Z.to_nat total_bytes) as Hdata
    by (unfold len in Hlen; change (Z.to_nat total_bytes) with (Z.to_nat 19690); lia).
  set (off := Z.of_nat P + 976) in *.
  assert (ModManager.enable_mod file_path fs1 (ModManager.new (MainEditor.dw_iso self) off total_bytes)
          = (<[MainEditor.dw_iso self := File (patched content (Z.to_nat off) data)]> fs1,
             ModManager.config (ModEnabled (basename file_path)) green
               (ModManager.new (MainEditor.dw_iso self) off total_bytes))) as Henabled.
  { apply enable_mod_ok; try done; subst off; cbn [ModManager.iso_unit_offset ModManager.new]; lia. }
  cbn zeta. rewrite Henabled. cbn [fst snd].
  split; [done|].
  pose proof (first_occurrence_fits _ _ Hfirst) as Hsig.
  destruct (load_found
              (<[MainEditor.dw_iso self := File (patched content (Z.to_nat off) data)]> fs1)
              s1 (patched content (Z.to_nat off) data) P) as [_ Hload].
  - by rewrite Hiso.
  - by rewrite Hiso, lookup_insert_eq.
  - apply first_occurrence_patched; [done | done | simpl; subst off; lia | lia].
  - unfold len. rewrite patched_length by lia.
    change total_bytes with 19690 in *. subst off. lia.
  - rewrite Hload. cbn [fst snd]. fold off.
    rewrite <- Hdata, patched_table by lia.
    assert (path_exists
              (<[MainEditor.dw_iso self := File (patched content (Z.to_nat off) data)]> fs1)
              (MainEditor.backup_path (MainEditor.dw_iso s1)) = true) as ->.
    { unfold path_exists in *. rewrite Hiso.
      destruct (decide (MainEditor.dw_iso self = MainEditor.backup_path (MainEditor.dw_iso self)))
        as [<- | Hneq]; [by rewrite lookup_insert_eq | by rewrite lookup_insert_ne]. }
    by rewrite Hoff.
Qed.

Lemma enable_then_load_witness :
  ∃ mm, open_mod_manager
          (MainEditor._load_unit_data_in_memory sample_fs
             (MainEditor.set_dw_iso "/iso/a.iso" MainEditor.init)).2
        = ((MainEditor._load_unit_data_in_memory sample_fs
              (MainEditor.set_dw_iso "/iso/a.iso" MainEditor.init)).2, Some mm).
Proof.
  destruct (enable_then_load sample_fs (MainEditor.set_dw_iso "/iso/a.iso" MainEditor.init)
              "/mods/full.dw5xlemod" (replicate (Z.to_nat 19690) x09))
    as (mm & Hmm & _).
  - vm_compute. reflexivity.
  - discriminate.
  - reflexivity.
  - vm_compute. reflexivity.
  - exists mm. exact Hmm.
Defined.

(** X11.  Disabling with the backup the load made undoes a mod: after a
    load that made the backup, enabling any 19690-byte mod and then
    disabling with that backup succeeds and leaves every file, the image
    included, exactly as the load left it. *)
Theorem disable_restores_image (fs : FS) (self : MainEditor.t) (file_path : string)
    (data : list byte) :
  let fs1 := (MainEditor._load_unit_data_in_memory fs self).1 in
  let s1 := (MainEditor._load_unit_data_in_memory fs self).2 in
  let backup := MainEditor.backup_path (MainEditor.dw_iso self) in
  MainEditor.status_label s1 = Status UnitBlockLoaded green →
  fs !! backup = None →
  file_path ≠ "" →
  fs !! file_path = Some (File data) →
  len data = 19690 →
  ∃ mm, open_mod_manager s1 = (s1, Some mm) ∧
    let enabled := ModManager.enable_mod file_path fs1 mm in
    let disabled := ModManager.disable_mod backup enabled.1 enabled.2 in
    ModManager.mod_status enabled.2 = Status (ModEnabled (basename file_path)) green ∧
    ModManager.mod_status disabled.2 = Status (BackupApplied (basename backup)) green ∧
    disabled.1 = fs1.
Proof.
  intros fs1 s1 backup Hok Hnone Hpath Hfile Hlen.
  destruct (loaded_session fs self Hok)
    as (content & P & Hne & Himg & Hfirst & Hfit & Htable & Hfs1 & Himg1 & Hbackup & Hiso &
        Hmem & Hoff & _ & Hmm).
  fold fs1 s1 backup in Hfs1, Himg1, Hbackup, Hiso, Hmem, Hoff, Hmm.
  eexists. split; [exact Hmm|].
  assert (fs1 !! file_path = Some (File data)) as Hfile1
    by (rewrite Hfs1; by apply load_keeps_files).
  assert (length data = Z.to_nat total_bytes) as Hdata
    by (unfold len in Hlen; change (Z.to_nat total_bytes) with (Z.to_nat 19690); lia).
  set (off := Z.of_nat P + 976) in *.
  set (table := take (Z.to_nat total_bytes) (drop (Z.to_nat off) content)) in *.
  assert (fs1 !! backup = Some (File table)) as Hbak.
  { rewrite Hfs1. unfold path_exists. rewrite Hnone. by rewrite lookup_insert_eq. }
  assert (backup ≠ MainEditor.dw_iso self) as Hdiff by (intros Heq; congruence).
  set (mm := ModManager.new (MainEditor.dw_iso self) off total_bytes).
  assert (ModManager.enable_mod file_path fs1 mm
          = (<[MainEditor.dw_iso self := File (patched content (Z.to_nat off) data)]> fs1,
             ModManager.config (ModEnabled (basename file_path)) green mm)) as Henabled.
  { apply enable_mod_ok; try done; subst off mm;
      cbn [ModManager.iso_unit_offset ModManager.new]; lia. }
  cbn zeta. rewrite Henabled. cbn [fst snd]. split; [done|].
  rewrite (disable_mod_ok backup _ _ table (patched content (Z.to_nat off) data)).
  - cbn [fst snd]. split; [done|].
    cbn [ModManager.iso_path ModManager.iso_unit_offset ModManager.config ModManager.new mm].
    subst table. rewrite <- Hdata, patched_restore by lia.
    rewrite insert_insert_eq. by apply insert_id.
  - apply backup_path_nonempty.
  - by rewrite lookup_insert_ne.
  - unfold len. rewrite Htable, Z2Nat.id; [reflexivity | by vm_compute].
  - cbn [ModManager.iso_path ModManager.config ModManager.new mm]. by rewrite lookup_insert_eq.
  - subst off. cbn [ModManager.iso_unit_offset ModManager.config ModManager.new mm]. lia.
  - cbn [ModManager.iso_unit_offset ModManager.config ModManager.new mm].
    rewrite patched_length, Htable by lia. lia.
Qed.

Lemma disable_restores_image_witness :
  ∃ mm, open_mod_manager
          (MainEditor._load_unit_data_in_memory sample_fs
             (MainEditor.set_dw_iso "/iso/a.iso" MainEditor.init)).2
        = ((MainEditor._load_unit_data_in_memory sample_fs
              (MainEditor.set_dw_iso "/iso/a.iso" MainEditor.init)).2, Some mm) ∧
    (ModManager.disable_mod (MainEditor.backup_path "/iso/a.iso")
       (ModManager.enable_mod "/mods/full.dw5xlemod"
          (MainEditor._load_unit_data_in_memory sample_fs
             (MainEditor.set_dw_iso "/iso/a.iso" MainEditor.init)).1 mm).1
       (ModManager.enable_mod "/mods/full.dw5xlemod"
          (MainEditor._load_unit_data_in_memory sample_fs
             (MainEditor.set_dw_iso "/iso/a.iso" MainEditor.init)).1 mm).2).1
    = (MainEditor._load_unit_data_in_memory sample_fs
         (MainEditor.set_dw_iso "/iso/a.iso" MainEditor.init)).1.
Proof.
  destruct (disable_restores_image sample_fs
              (MainEditor.set_dw_iso "/iso/a.iso" MainEditor.init)
              "/mods/full.dw5xlemod" (replicate (Z.to_nat 19690) x09))
    as (mm & Hmm & _ & _ & Hfs).
  - vm_compute. reflexivity.
  - vm_compute. reflexivity.
  - discriminate.
  - reflexivity.
  - vm_compute. reflexivity.
  - exists mm. exact (conj Hmm Hfs).
Defined.

(** ** Dumping the buffer: [create_unit_mod] *)

Section dump_facts.
Import MainEditor.

Lemma split_head_dot_free head :
  dot_free head = true → split_head "." head = head.
Proof.
  induction head as [|c head IH]; [done|]. cbn [dot_free split_head].
  intros [Hc Hrest]%andb_true_iff. apply negb_true_iff in Hc. rewrite Hc.
  by rewrite IH.
Qed.

Lemma split_head_at_dot head rest :
  dot_free head = true → split_head "." (head ++ String "." rest) = head.
Proof.
  induction head as [|c head IH]; [done|]. simpl.
  intros [Hc Hrest]%andb_true_iff. apply negb_true_iff in Hc. rewrite Hc.
  by rewrite IH.
Qed.
End dump_facts.

(** X12.  A dump after a successful submit, under a mod file name that can
    be written (a file of that name to replace, or none and a directory to
    create it in), succeeds and holds the edit: the mod file is the
    19690-byte buffer with the 22 bytes of the selected slot replaced by
    the record of the submitted fields, and no other file is touched. *)
Theorem submit_then_dump (fs : FS) (self : MainEditor.t) (mem : BytesIO.t) (f : Fields Z) :
  MainEditor.unit_mem self = Some mem →
  len (BytesIO.buf mem) = 19690 →
  0 ≤ MainEditor._get_selected_slot_index self < NUM_SLOTS_TOTAL →
  MainEditor.vars self = fields_map Some f →
  0 ≤ name f ≤ 65535 →
  writable fs (mod_file_name (MainEditor.modname self)) = true →
  let i := MainEditor._get_selected_slot_index self in
  let dumped := MainEditor.create_unit_mod fs (MainEditor.submit_unit self) in
  let block := patched (BytesIO.buf mem) (Z.to_nat (i * SLOT_SIZE)) (record_of f) in
  len block = 19690 ∧
  dumped.1 = <[mod_file_name (MainEditor.modname self) := File block]> fs ∧
  MainEditor.status_label dumped.2
    = Status (ModFileCreated (mod_file_name (MainEditor.modname self))) green.
Proof.
  intros Hmem Hlen Hi Hvars Hname Hw i dumped block. subst dumped.
  assert (MainEditor.submit_unit self =
          MainEditor.config (ValuesWritten i) green
            (MainEditor.set_unit_mem
               (Some (BytesIO.write (BytesIO.seek mem (i * SLOT_SIZE)) (record_of f))) self))
    as -> by (unfold MainEditor.submit_unit; by rewrite Hmem, (encode_ok _ _ f)).
  assert (Z.to_nat (i * SLOT_SIZE) + length (record_of f) ≤ length (BytesIO.buf mem))%nat as Hfit.
  { subst i. unfold len, SLOT_SIZE, NUM_SLOTS_TOTAL in *. cbn [record_of length]. lia. }
  split; [unfold len in *; subst block; by rewrite patched_length|].
  rewrite (create_unit_mod_writable _ _
             (BytesIO.write (BytesIO.seek mem (i * SLOT_SIZE)) (record_of f)));
    [|done|done].
  unfold BytesIO.write, BytesIO.seek. cbn [BytesIO.buf BytesIO.pos fst snd].
  by rewrite write_at_inside by done.
Qed.

Lemma submit_then_dump_witness :
  (MainEditor.create_unit_mod sample_fs
     (MainEditor.submit_unit (editor_with sample_fields "0x2"))).1
  = <["DW5XLEUnit.dw5xlemod"
      := File (patched (bytearray (SLOT_SIZE * NUM_SLOTS_TOTAL)) (Z.to_nat (2 * SLOT_SIZE))
                 (record_of sample_fields))]> sample_fs ∧
  MainEditor.status_label
    (MainEditor.create_unit_mod sample_fs
       (MainEditor.submit_unit (editor_with sample_fields "0x2"))).2
  = Status (ModFileCreated "DW5XLEUnit.dw5xlemod") green.
Proof.
  destruct (submit_then_dump sample_fs (editor_with sample_fields "0x2")
              (BytesIO.new (bytearray (SLOT_SIZE * NUM_SLOTS_TOTAL))) sample_fields)
    as (_ & Hfs & Hstatus).
  - reflexivity.
  - vm_compute. reflexivity.
  - by_computation.
  - reflexivity.
  - by_computation.
  - vm_compute. reflexivity.
  - exact (conj Hfs Hstatus).
Defined.



(** X14.  The mod file is named after the typed mod name up to its first
    dot: whatever follows the dot is dropped, the extension .dw5xlemod is
    added, and an empty head gives DW5XLEUnit.dw5xlemod. *)
Theorem mod_file_name_up_to_first_dot (head rest : string) :
  dot_free head = true →
  mod_file_name (head ++ String "." rest) = mod_file_name head ∧
  mod_file_name head
  = ((if String.eqb head "" then "DW5XLEUnit" else head) ++ ".dw5xlemod")%string.
Proof.
  intros Hfree. unfold mod_file_name.
  by rewrite split_head_at_dot, split_head_dot_free.
Qed.

Lemma mod_file_name_up_to_first_dot_witness :
  mod_file_name "my.mod.v2" = mod_file_name "my" ∧
  mod_file_name "my" = "my.dw5xlemod".
Proof.
  apply (mod_file_name_up_to_first_dot "my" "mod.v2"). reflexivity.
Defined.

(** ** What the operations leave alone *)

Section frame_facts.
Import MainEditor.

Lemma load_fs_cases fs self :
  (_load_unit_data_in_memory fs self).1 = fs ∨
  ∃ table, fs !! backup_path (dw_iso self) = None ∧
           (_load_unit_data_in_memory fs self).1
           = <[backup_path (dw_iso self) := File table]> fs.
Proof.
  destruct (load_cases fs self) as [[_ H] | [(_ & _ & H) | [(c & _ & _ & _ & H) | Hfound]]];
    try (left; by rewrite H).
  destruct Hfound as (content & off & _ & _ & _ & [[_ H] | [_ H]]); rewrite H; [by left|].
  cbn [fst]. unfold path_exists.
  destruct (fs !! backup_path (dw_iso self)) eqn:Hb; [by left | right; eauto].
Qed.

Lemma apply_fs_cases (fs fs' : FS) (mm : ModManager.t) file_path
    (raise : Z → Z → exn) :
  (data ← read_file fs file_path;
   if negb (len data =? ModManager.block_size mm)
   then Raise (raise (len data) (ModManager.block_size mm))
   else patch_file fs (ModManager.iso_path mm) (ModManager.iso_unit_offset mm) data) = Ok fs' →
  ∃ iso iso', fs !! ModManager.iso_path mm = Some (File iso) ∧
              fs' = <[ModManager.iso_path mm := File iso']> fs.
Proof.
  unfold read_file, patch_file.
  destruct (fs !! file_path) as [[data|]|]; cbn [mbind result_bind]; try discriminate.
  destruct (negb _); [discriminate|].
  destruct (fs !! ModManager.iso_path mm) as [[iso|]|]; try discriminate.
  destruct (_ <? 0); [discriminate|]. intros [= <-]. eauto.
Qed.
End frame_facts.

Lemma apply_frame (file_path : string) (fs : FS) (mm : ModManager.t)
    (apply : string → FS → ModManager.t → FS * ModManager.t) :
  apply = ModManager.enable_mod ∨ apply = ModManager.disable_mod →
  (∀ p, p ≠ ModManager.iso_path mm → (apply file_path fs mm).1 !! p = fs !! p) ∧
  isfile (apply file_path fs mm).1 (ModManager.iso_path mm)
    = isfile fs (ModManager.iso_path mm) ∧
  path_exists (apply file_path fs mm).1 (ModManager.iso_path mm)
    = path_exists fs (ModManager.iso_path mm).
Proof.
  intros Happly.
  assert ((apply file_path fs mm).1 = fs ∨
          ∃ iso iso', fs !! ModManager.iso_path mm = Some (File iso) ∧
            (apply file_path fs mm).1 = <[ModManager.iso_path mm := File iso']> fs) as Hcases.
  { destruct Happly as [-> | ->];
      [unfold ModManager.enable_mod | unfold ModManager.disable_mod];
      (destruct (String.eqb file_path ""); [by left|]);
      (destruct (_ ≫= _) as [fs'|e] eqn:Hrun; [|by left]);
      right; cbn [fst]; eapply apply_fs_cases; exact Hrun. }
  destruct Hcases as [-> | (iso & iso' & Hiso & ->)]; [done|].
  split; [intros p Hp; by rewrite lookup_insert_ne|].
  unfold isfile, path_exists. by rewrite lookup_insert_eq, Hiso.
Qed.

(** X15.  Enabling or disabling never creates or removes a file and
    changes no file other than the image: every other path holds what it
    held, and the image path names a file afterwards exactly when it did
    before. *)
Theorem apply_touches_only_image (file_path : string) (fs : FS) (mm : ModManager.t) :
  (∀ p, p ≠ ModManager.iso_path mm →
        (ModManager.enable_mod file_path fs mm).1 !! p = fs !! p ∧
        (ModManager.disable_mod file_path fs mm).1 !! p = fs !! p) ∧
  isfile (ModManager.enable_mod file_path fs mm).1 (ModManager.iso_path mm)
    = isfile fs (ModManager.iso_path mm) ∧
  isfile (ModManager.disable_mod file_path fs mm).1 (ModManager.iso_path mm)
    = isfile fs (ModManager.iso_path mm) ∧
  path_exists (ModManager.enable_mod file_path fs mm).1 (ModManager.iso_path mm)
    = path_exists fs (ModManager.iso_path mm) ∧
  path_exists (ModManager.disable_mod file_path fs mm).1 (ModManager.iso_path mm)
    = path_exists fs (ModManager.iso_path mm).
Proof.
  destruct (apply_frame file_path fs mm ModManager.enable_mod) as (He & Hef & Hee);
    [by left|].
  destruct (apply_frame file_path fs mm ModManager.disable_mod) as (Hd & Hdf & Hde);
    [by right|].
  split; [intros p Hp; split; [by apply He | by apply Hd]|]. done.
Qed.

(** X16.  A load never changes or removes a file that exists, the image
    included; the only path it can create is the backup path of the
    selected image. *)
Theorem load_never_overwrites (fs : FS) (self : MainEditor.t) (p : string) :
  (∀ n, fs !! p = Some n →
        (MainEditor._load_unit_data_in_memory fs self).1 !! p = Some n) ∧
  (fs !! p = None → p ≠ MainEditor.backup_path (MainEditor.dw_iso self) →
   (MainEditor._load_unit_data_in_memory fs self).1 !! p = None).
Proof.
  destruct (load_fs_cases fs self) as [-> | (table & Hnone & ->)]; [done|]. split.
  - intros n Hp. rewrite lookup_insert_ne; [done|]. intros <-. congruence.
  - intros Hp Hneq. by rewrite lookup_insert_ne.
Qed.

Lemma load_never_overwrites_witness :
  (MainEditor._load_unit_data_in_memory sample_fs
     (MainEditor.set_dw_iso "/iso/a.iso" MainEditor.init)).1 !! "/mods/short.dw5xlemod"
  = Some (File [x00; x01]).
Proof.
  apply (proj1 (load_never_overwrites sample_fs
                  (MainEditor.set_dw_iso "/iso/a.iso" MainEditor.init)
                  "/mods/short.dw5xlemod")).
  reflexivity.
Defined.

(** X17.  Loading again right after a successful load changes nothing: the
    second load returns the same file system and the same editor state. *)
Theorem reload_is_idempotent (fs : FS) (self : MainEditor.t) :
  MainEditor.status_label (MainEditor._load_unit_data_in_memory fs self).2
    = Status UnitBlockLoaded green →
  MainEditor._load_unit_data_in_memory
    (MainEditor._load_unit_data_in_memory fs self).1
    (MainEditor._load_unit_data_in_memory fs self).2
  = MainEditor._load_unit_data_in_memory fs self.
Proof.
  intros Hok.
  destruct (loaded_session fs self Hok)
    as (content & P & Hne & Himg & Hfirst & Hfit & Htable & _ & Himg1 & Hbackup & Hiso & _).
  destruct (load_success_inv fs self Hok) as (c & P' & _ & Himg' & Hfirst' & Hfit' & Heq).
  rewrite Himg in Himg'. injection Himg' as <-.
  rewrite <- (first_occurrence_unique _ _ _ _ Hfirst Hfirst') in Heq. clear P' Hfirst' Hfit'.
  destruct (load_found (MainEditor._load_unit_data_in_memory fs self).1
              (MainEditor._load_unit_data_in_memory fs self).2 content P) as [_ Hload].
  - by rewrite Hiso.
  - by rewrite Hiso.
  - done.
  - unfold len. change total_bytes with 19690 in *. lia.
  - rewrite Hload, Hiso, Hbackup, Heq. reflexivity.
Qed.

Lemma reload_is_idempotent_witness :
  MainEditor._load_unit_data_in_memory
    (MainEditor._load_unit_data_in_memory sample_fs
       (MainEditor.set_dw_iso "/iso/a.iso" MainEditor.init)).1
    (MainEditor._load_unit_data_in_memory sample_fs
       (MainEditor.set_dw_iso "/iso/a.iso" MainEditor.init)).2
  = MainEditor._load_unit_data_in_memory sample_fs
      (MainEditor.set_dw_iso "/iso/a.iso" MainEditor.init).
Proof.
  apply (reload_is_idempotent sample_fs (MainEditor.set_dw_iso "/iso/a.iso" MainEditor.init)).
  vm_compute. reflexivity.
Defined.

(** ** One backup per file name *)

Section backup_name_facts.

Lemma basename_from_dir acc dir name :
  slash_free name = true →
  basename_from acc (dir ++ String "/" name) = name.
Proof.
  intros Hname. revert acc. induction dir as [|c dir IH]; intros acc.
  - change ("" ++ String "/" name)%string with (String "/" name).
    cbn [basename_from]. change (Ascii.eqb "/" "/") with true. cbn iota.
    by rewrite basename_from_slash_free.
  - rewrite append_cons. cbn [basename_from]. destruct (Ascii.eqb c "/"); apply IH.
Qed.

Lemma basename_dir dir name :
  slash_free name = true → basename (dir ++ String "/" name) = name.
Proof. apply basename_from_dir. Qed.
End backup_name_facts.

(** X18.  The backup is named after the image's file name alone: images of
    the same name in any two directories share one backup path, so a load of
    the second finds the first one's backup in place and writes no file. *)
Theorem backup_shared_across_directories (dir1 dir2 name : string) (fs : FS)
    (self : MainEditor.t) (n : node) :
  slash_free name = true →
  MainEditor.dw_iso self = (dir2 ++ String "/" name)%string →
  fs !! MainEditor.backup_path (dir1 ++ String "/" name) = Some n →
  MainEditor.backup_path (MainEditor.dw_iso self)
    = MainEditor.backup_path (dir1 ++ String "/" name) ∧
  (MainEditor._load_unit_data_in_memory fs self).1 = fs.
Proof.
  intros Hname Hiso Hbackup.
  assert (MainEditor.backup_path (MainEditor.dw_iso self)
          = MainEditor.backup_path (dir1 ++ String "/" name)) as Hsame.
  { unfold MainEditor.backup_path. by rewrite Hiso, !basename_dir. }
  split; [done|].
  destruct (load_fs_cases fs self) as [-> | (table & Hnone & _)]; [done|].
  rewrite Hsame in Hnone. congruence.
Qed.

Lemma backup_shared_across_directories_witness :
  MainEditor.backup_path "/other/a.iso" = MainEditor.backup_path "/iso/a.iso" ∧
  (MainEditor._load_unit_data_in_memory
     (<[MainEditor.backup_path "/iso/a.iso" := File [x01]]> sample_fs)
     (MainEditor.set_dw_iso "/other/a.iso" MainEditor.init)).1
  = <[MainEditor.backup_path "/iso/a.iso" := File [x01]]> sample_fs.
Proof.
  apply (backup_shared_across_directories "/iso" "/other" "a.iso"
           (<[MainEditor.backup_path "/iso/a.iso" := File [x01]]> sample_fs)
           (MainEditor.set_dw_iso "/other/a.iso" MainEditor.init) (File [x01])).
  - reflexivity.
  - reflexivity.
  - apply lookup_insert_eq.
Defined.
